(** * feedbackforge Python SDK: batch processing, retry, scheduling, authentication

    A shallow embedding of the SDK sources under [sdk/python]:
    - [forge/utils.py] and [forge/auth.py] (the packaged modules),
    - [sdk_0.py], [production-sdk.py], [production-sdk (1).py] and
      [production-sdk (2).py] (four revisions of the single-file SDK).

    Python exceptions are values of [exn]; a call either [Returns] a value
    or [Raises] an exception.  Side effects that the properties talk about
    (transport calls, sleeps, progress notifications) are collected in an
    event trace returned next to the outcome. *)

From Stdlib Require Import ZArith String List Lia Permutation.
From stdpp Require Import gmap strings list pretty.
Import ListNotations.

Local Open Scope string_scope.
Local Open Scope list_scope.

(** ** Exceptions *)

(** The exception classes that occur in the sources.  [ConnectionError],
    [HTTPError] and [JSONDecodeError] are the [requests.exceptions] classes;
    [PlainException] is a direct instance of [Exception]. *)
Inductive exn_class : Type :=
  | PlainException
  | ValueError | AttributeError | NameError | FileNotFoundError
  | RequestException | ConnectionError | HTTPError | JSONDecodeError
  | SDKException | ConfigurationError | AuthenticationError | APIError
  | SchedulingError | ValidationError.

#[global] Instance exn_class_eq_dec : EqDecision exn_class.
Proof. solve_decision. Defined.

(** An exception object: its class, [str(e)], and the [original_error]
    that [SDKException.__init__] of production-sdk (2).py stores (class and
    message of the wrapped exception). *)
Record exn : Type := Exn {
  exn_cls : exn_class;
  str : string;
  original_error : option (exn_class * string)
}.

Definition wrap (e : exn) : option (exn_class * string) :=
  Some (exn_cls e, str e).

(** [isinstance e c] for the class hierarchy of the sources; every class
    here derives from [Exception], so [except Exception] catches all. *)
Definition parent (c : exn_class) : option exn_class :=
  match c with
  | ConnectionError | HTTPError | JSONDecodeError => Some RequestException
  | ConfigurationError | AuthenticationError | APIError
  | SchedulingError | ValidationError => Some SDKException
  | _ => None
  end.

Definition isinstance (e : exn) (c : exn_class) : bool :=
  bool_decide (exn_cls e = c) || bool_decide (parent (exn_cls e) = Some c).

Inductive outcome (A : Type) : Type :=
  | Returns (a : A)
  | Raises (e : exn).
Arguments Returns {A} a.
Arguments Raises {A} e.

(** ** Observable effects *)

Inductive event : Type :=
  | Call                            (* one invocation of the retried function *)
  | Post (url : string)             (* one transport call: session.post *)
  | Sleep (secs : Z)                (* time.sleep *)
  | Progress (completed total : nat)    (* progress_callback(completed, total) *)
  | LogProgress (completed total : nat) (* logger.info("Progress: c/t ...") *).

#[global] Instance event_eq_dec : EqDecision event.
Proof. solve_decision. Defined.

Definition is_call (ev : event) : bool :=
  match ev with Call => true | _ => false end.
Definition is_post (ev : event) : bool :=
  match ev with Post _ => true | _ => false end.

Definition calls (tr : list event) : nat := length (filter is_call tr).
Definition posts (tr : list event) : nat := length (filter is_post tr).

Definition sleeps (tr : list event) : list Z :=
  flat_map (fun ev => match ev with Sleep d => [d] | _ => [] end) tr.
Definition notifications (tr : list event) : list (nat * nat) :=
  flat_map (fun ev => match ev with Progress c t => [(c, t)] | _ => [] end) tr.
Definition progress_lines (tr : list event) : list (nat * nat) :=
  flat_map (fun ev => match ev with LogProgress c t => [(c, t)] | _ => [] end) tr.

(** [time.sleep] rejects a negative length. *)
Definition sleep (secs : Z) : list event * outcome unit :=
  if (secs <? 0)%Z
  then ([], Raises (Exn ValueError "sleep length must be non-negative" None))
  else ([Sleep secs], Returns tt).

(** [range(n)] for an integer [n]: empty when [n <= 0]. *)
Definition range (n : Z) : list Z := seqZ 0 n.

(** ** forge/utils.py *)

Module ForgeUtils.

(** The retried callable is a thunk with side effects: [func k] is what
    its [k]-th invocation (counting from 0) does.  [Returns None] is the
    value of a call that falls off the end of the function body. *)
Fixpoint retry_loop {A} (func : nat -> outcome A) (retries delay : Z)
    (attempts : list Z) (k : nat) : list event * outcome (option A) :=
  match attempts with
  | [] => ([], Returns None)
  | attempt :: rest =>
      match func k with
      | Returns v => ([Call], Returns (Some v))
      | Raises e =>
          if (attempt =? retries - 1)%Z then ([Call], Raises e)
          else
            match sleep (delay * 2 ^ attempt) with
            | (evs, Raises e') => (Call :: evs, Raises e')
            | (evs, Returns _) =>
                let '(tr, r) := retry_loop func retries delay rest (S k) in
                (Call :: evs ++ tr, r)
            end
      end
  end.

Definition retry {A} (func : nat -> outcome A) (retries delay : Z)
    : list event * outcome (option A) :=
  retry_loop func retries delay (range retries) 0.

Definition default_retries : Z := 3.
Definition default_delay : Z := 2.

End ForgeUtils.

(** ** The transport: [requests]

    [session.post] either raises or returns a response; [response.json()]
    either raises or returns the decoded body, which is a JSON object or
    some other JSON value.  Which exception class a failure has is up to
    the library, so it is part of the environment. *)

Inductive json : Type :=
  | JObject (fields : gmap string string)
  | JOther.

Record response : Type := Response {
  status_code : Z;
  json_body : outcome json
}.

Definition raise_for_status (r : response) : outcome unit :=
  if (400 <=? status_code r)%Z && (status_code r <? 500)%Z
  then Raises (Exn HTTPError "Client Error" None)
  else if (500 <=? status_code r)%Z && (status_code r <? 600)%Z
  then Raises (Exn HTTPError "Server Error" None)
  else Returns tt.

(** [session.post(...)], [response.raise_for_status()], [response.json()]
    in sequence, as every revision does. *)
Definition post_json (reply : outcome response) : outcome json :=
  match reply with
  | Raises e => Raises e
  | Returns r =>
      match raise_for_status r with
      | Raises e => Raises e
      | Returns _ => json_body r
      end
  end.

(** ** Data model *)

Record ProcessingResult : Type := mkResult {
  url : string;
  status : string;
  processed_at : nat;
  metadata : option string;
  error : option string
}.

(** [ProcessingResult(url=url, status=data.get('status', 'completed'),
    processed_at=datetime.now(), metadata=data.get('metadata'))];
    [data.get] exists only on a dict. *)
Definition result_of_data (u : string) (now : nat) (data : json)
    : outcome ProcessingResult :=
  match data with
  | JObject d =>
      Returns (mkResult u (default "completed" (d !! "status")) now
                        (d !! "metadata") None)
  | JOther =>
      Raises (Exn AttributeError "object has no attribute 'get'" None)
  end.

Definition failed_result (u : string) (now : nat) (e : string)
    : ProcessingResult :=
  mkResult u "failed" now None (Some e).

(** ** The worker pool: [concurrent.futures]

    A future carries the url it was submitted for, the events its worker
    produced and the worker's outcome.  The order in which [as_completed]
    hands out the futures is decided by the scheduler: it is the argument
    [order], a list of positions in the submission list. *)

Record future (A : Type) : Type := Future {
  fut_url : string;
  fut_events : list event;
  fut_result : outcome A
}.
Arguments Future {A} _ _ _.
Arguments fut_url {A} _.
Arguments fut_events {A} _.
Arguments fut_result {A} _.

Definition ThreadPoolExecutor (max_workers : Z) : outcome unit :=
  if (max_workers <=? 0)%Z
  then Raises (Exn ValueError "max_workers must be greater than 0" None)
  else Returns tt.

(** [{executor.submit(worker, url): url for url in urls}]: one future per
    position of [urls]. *)
Definition submit_all {A} (worker : nat -> string -> list event * outcome A)
    (urls : list string) : list (future A) :=
  imap (fun i u => Future u (worker i u).1 (worker i u).2) urls.

Definition as_completed {A} (futures : list (future A)) (order : list nat)
    : list (future A) :=
  omap (fun i => futures !! i) order.

Definition worker_events {A} (futures : list (future A)) : list event :=
  concat (fut_events <$> futures).

(** ** The periodic trigger store: [python-crontab]

    A crontab is the list of its jobs.  [CronTab(user=True)] reads the
    user's table, [write()] stores the table held in memory.  Whether a
    cadence expression is accepted by [setall] is decided by the library:
    it is the argument [valid]. *)

Record CronItem : Type := mkJob {
  command : string;
  comment : string;
  slices : string
}.

#[global] Instance CronItem_eq_dec : EqDecision CronItem.
Proof. solve_decision. Defined.

Definition has_comment (c : string) (job : CronItem) : bool :=
  bool_decide (comment job = c).

(** [cron.find_comment(c)] with a string: the jobs of a snapshot of the
    table whose comment is exactly [c]. *)
Definition find_comment (crons : list CronItem) (c : string) : list CronItem :=
  filter (has_comment c) crons.

(** [cron.remove(job)]: the first entry equal to [job] goes; [None] when
    there is none ([ValueError] in Python). *)
Fixpoint remove (job : CronItem) (crons : list CronItem)
    : option (list CronItem) :=
  match crons with
  | [] => None
  | j :: rest =>
      if decide (j = job) then Some rest
      else rest' ← remove job rest; Some (j :: rest')
  end.

(** [for job in existing_jobs: cron.remove(job)]; the table reached and
    whether the loop raised. *)
Fixpoint remove_each (jobs crons : list CronItem)
    : list CronItem * outcome unit :=
  match jobs with
  | [] => (crons, Returns tt)
  | job :: more =>
      match remove job crons with
      | None => (crons, Raises (Exn ValueError "x not in list" None))
      | Some crons' => remove_each more crons'
      end
  end.

(** [cron.new(command=..., comment=...)]: a job on every minute until
    [setall] gives it a cadence. *)
Definition new (cmd c : string) : CronItem := mkJob cmd c "* * * * *".

Definition setall (valid : string -> bool) (job : CronItem) (schedule : string)
    : outcome CronItem :=
  if valid schedule then Returns (mkJob (command job) (comment job) schedule)
  else Raises (Exn ValueError ("Invalid cadence: " +:+ schedule) None).

Definition count_label (c : string) (crons : list CronItem) : nat :=
  length (find_comment crons c).

(** ** sdk_0.py *)

Module Sdk0.

Fixpoint retry_loop {A} (func : nat -> outcome A) (retries delay : Z)
    (attempts : list Z) (k : nat) : list event * outcome A :=
  match attempts with
  | [] =>
      ([], Raises (Exn PlainException
                       ("All " +:+ pretty retries +:+ " retries failed.") None))
  | attempt :: rest =>
      match func k with
      | Returns v => ([Call], Returns v)
      | Raises e =>
          match sleep (delay * 2 ^ attempt) with
          | (evs, Raises e') => (Call :: evs, Raises e')
          | (evs, Returns _) =>
              let '(tr, r) := retry_loop func retries delay rest (S k) in
              (Call :: evs ++ tr, r)
          end
      end
  end.

Definition retry {A} (func : nat -> outcome A) (retries delay : Z)
    : list event * outcome A :=
  retry_loop func retries delay (range retries) 0.

(** [call_process(url)]; [config] is the module-level dict, [net k] the
    reply to the [k]-th request for this url. *)
Definition call_process (config : gmap string string)
    (net : nat -> outcome response) (u : string)
    : list event * outcome json :=
  match config !! "API_ENDPOINT" with
  | None | Some "" =>
      ([], Raises (Exn ValueError "API endpoint is not configured." None))
  | Some _ =>
      let make_request k := post_json (net k) in
      let '(tr, r) := retry make_request 3 2 in
      ((fun ev => match ev with Call => Post u | _ => ev end) <$> tr, r)
  end.

(** The loop of [process_documents] over the futures in submission
    order: a failed future is logged and leaves no entry. *)
Fixpoint gather (futures : list (future json)) (results : list json)
    : list json :=
  match futures with
  | [] => results
  | f :: rest =>
      match fut_result f with
      | Returns r => gather rest (results ++ [r])
      | Raises _ => gather rest results
      end
  end.

Definition process_documents (config : gmap string string)
    (net : nat -> nat -> outcome response) (urls : list string)
    : list event * outcome (list json) :=
  let futures := submit_all (fun i u => call_process config (net i) u) urls in
  (worker_events futures, Returns (gather futures [])).

(** [create_cron_job(script_path, schedule)] acting on the user's table. *)
Definition create_cron_job (valid : string -> bool) (tab : list CronItem)
    (script_path schedule : string) : list CronItem * outcome unit :=
  let job := new ("python " +:+ script_path) "Process Documents Cron Job" in
  match setall valid job schedule with
  | Raises e => (tab, Raises e)
  | Returns job' => (tab ++ [job'], Returns tt)
  end.

End Sdk0.

(** ** The [backoff] decorator

    [backoff.on_exception(backoff.expo, classes, max_tries=n)] around a
    target: the target is called again only after it raised an exception
    of one of [classes], at most [n] times in all; any other exception and
    every return value pass through at once.  [waited k] is the wait before
    call [k + 1]; [backoff.expo] bounds it by [2 ^ k] (the library draws the
    actual wait at random below that bound).  [max_time] is not modelled. *)

Fixpoint on_exception_loop {A} (retryable : exn -> bool)
    (target : nat -> list event * outcome A) (more : nat) (k : nat)
    : list event * outcome A :=
  let '(evs, r) := target k in
  match r with
  | Returns v => (evs, Returns v)
  | Raises e =>
      if retryable e then
        match more with
        | O => (evs, Raises e)
        | S more' =>
            let '(tr, r') := on_exception_loop retryable target more' (S k) in
            (evs ++ Sleep (2 ^ Z.of_nat k) :: tr, r')
        end
      else (evs, Raises e)
  end.

Definition on_exception {A} (retryable : exn -> bool) (max_tries : nat)
    (target : nat -> list event * outcome A) : list event * outcome A :=
  on_exception_loop retryable target (max_tries - 1) 0.

(** ** production-sdk.py *)

Module ProductionSdk.

(** The undecorated body of [process_document]; [reply] is what
    [session.post] does on this call. *)
Definition process_document_body (reply : outcome response) (now : nat)
    (u : string) : list event * outcome ProcessingResult :=
  let attempt :=
    match post_json reply with
    | Raises e => Raises e
    | Returns data => result_of_data u now data
    end in
  ([Post u],
   match attempt with
   | Returns r => Returns r
   | Raises e =>
       if isinstance e RequestException
       then Returns (failed_result u now (str e))
       else Raises e
   end).

Definition process_document (net : nat -> outcome response) (now : nat)
    (u : string) : list event * outcome ProcessingResult :=
  on_exception
    (fun e => isinstance e RequestException || isinstance e APIError) 3
    (fun k => process_document_body (net k) now u).

(** The loop over [as_completed]: [future.result()] is not guarded. *)
Fixpoint collect (progress_callback : bool) (total : nat)
    (done : list (future ProcessingResult))
    (results : list ProcessingResult) (completed : nat)
    : list event * outcome (list ProcessingResult) :=
  match done with
  | [] => ([], Returns results)
  | f :: rest =>
      match fut_result f with
      | Raises e => ([], Raises e)
      | Returns result =>
          let completed := S completed in
          let note :=
            if progress_callback then Progress completed total
            else LogProgress completed total in
          let '(tr, out) :=
            collect progress_callback total rest (results ++ [result])
                    completed in
          (note :: tr, out)
      end
  end.

(** [process_batch(urls, max_workers, progress_callback)].  [net i k] is
    the reply to call [k] of the worker of position [i], [clock i] the
    time that worker reads; the events of the workers are listed before
    those of the collecting loop. *)
Definition process_batch (net : nat -> nat -> outcome response)
    (clock : nat -> nat) (urls : list string) (max_workers : Z)
    (progress_callback : bool) (order : list nat)
    : list event * outcome (list ProcessingResult) :=
  match ThreadPoolExecutor max_workers with
  | Raises e => ([], Raises e)
  | Returns _ =>
      let futures :=
        submit_all (fun i u => process_document (net i) (clock i) u) urls in
      let '(tr, out) :=
        collect progress_callback (length urls)
                (as_completed futures order) [] 0 in
      (worker_events futures ++ tr, out)
  end.

(** [DocumentProcessingScheduler]: [cron] is the table held by the
    object, [tab] the user's stored table. *)
Record Scheduler : Type := mkScheduler {
  script_path : string;
  cron : list CronItem
}.

Definition init (path : string) (tab : list CronItem) : Scheduler :=
  mkScheduler path tab.

Definition schedule_job (valid : string -> bool) (self : Scheduler)
    (tab : list CronItem) (schedule label : string)
    : Scheduler * list CronItem * outcome CronItem :=
  let fail (crons : list CronItem) (e : exn) :=
    (mkScheduler (script_path self) crons, tab,
     Raises (Exn SDKException ("Failed to schedule job: " +:+ str e) None)) in
  match remove_each (find_comment (cron self) label) (cron self) with
  | (crons, Raises e) => fail crons e
  | (crons, Returns _) =>
      let job := new ("python " +:+ script_path self) label in
      match setall valid job schedule with
      | Raises e => fail (crons ++ [job]) e
      | Returns job' =>
          (mkScheduler (script_path self) (crons ++ [job']),
           crons ++ [job'], Returns job')
      end
  end.

End ProductionSdk.

(** ** production-sdk (1).py *)

Module ProductionSdk1.

Definition process_document (reply : outcome response) (now : nat)
    (u : string) : list event * outcome ProcessingResult :=
  let attempt :=
    match post_json reply with
    | Raises e => Raises e
    | Returns data => result_of_data u now data
    end in
  ([Post u],
   match attempt with
   | Returns r => Returns r
   | Raises e =>
       if isinstance e RequestException
       then Raises (Exn APIError ("Failed to process document: " +:+ str e)
                        None)
       else Raises e
   end).

(** The loop over [as_completed]: only [APIError] is handled, and the
    counter moves in the [try] branch. *)
Fixpoint collect (total : nat) (done : list (future ProcessingResult))
    (now : string -> nat) (results : list ProcessingResult)
    (completed : nat) : list event * outcome (list ProcessingResult) :=
  match done with
  | [] => ([], Returns results)
  | f :: rest =>
      match fut_result f with
      | Returns result =>
          let completed := S completed in
          let '(tr, out) :=
            collect total rest now (results ++ [result]) completed in
          (LogProgress completed total :: tr, out)
      | Raises e =>
          if isinstance e APIError then
            let u := fut_url f in
            collect total rest now
                    (results ++ [failed_result u (now u) (str e)]) completed
          else ([], Raises e)
      end
  end.

Definition process_batch (net : nat -> outcome response)
    (clock : nat -> nat) (now : string -> nat) (urls : list string)
    (max_workers : Z) (order : list nat)
    : list event * outcome (list ProcessingResult) :=
  match ThreadPoolExecutor max_workers with
  | Raises e => ([], Raises e)
  | Returns _ =>
      let futures :=
        submit_all (fun i u => process_document (net i) (clock i) u) urls in
      let '(tr, out) :=
        collect (length urls) (as_completed futures order) now [] 0 in
      (worker_events futures ++ tr, out)
  end.

End ProductionSdk1.

(** ** Local files and module namespaces, for [Authenticator] *)

(** A file holds a JSON document (here its credentials text) or bytes that
    [json.load] rejects. *)
Inductive file : Type :=
  | JsonFile (credentials : string)
  | Garbage.

Definition exists_path (fs : gmap string file) (path : string) : bool :=
  bool_decide (is_Some (fs !! path)).

(** [with open(path, 'r') as f: json.load(f)] *)
Definition open_json_load (fs : gmap string file) (path : string)
    : outcome string :=
  match fs !! path with
  | None => Raises (Exn FileNotFoundError "No such file or directory" None)
  | Some Garbage => Raises (Exn ValueError "Expecting value" None)
  | Some (JsonFile c) => Returns c
  end.

(** Evaluating a global name in a module whose namespace binds exactly
    [globals]. *)
Definition name_lookup (globals : list string) (name : string) : outcome unit :=
  if bool_decide (name ∈ globals) then Returns tt
  else Raises (Exn NameError ("name '" +:+ name +:+ "' is not defined") None).

(** [f"{x}"] for an optional string. *)
Definition fmt (x : option string) : string := default "None" x.

(** Python truth of [config.get(key)]: [None] and [""] are false. *)
Definition truthy (x : option string) : bool :=
  match x with
  | None | Some "" => false
  | Some _ => true
  end.

Definition not_found (json_key_path : option string) : exn :=
  Exn AuthenticationError
      ("GCP JSON key file not found: " +:+ fmt json_key_path) None.

(** ** production-sdk (2).py *)

Module ProductionSdk2.

(** The names bound at module level by the [import] statements and the
    class definitions. *)
Definition module_globals : list string :=
  ["os"; "yaml"; "logging"; "requests"; "ThreadPoolExecutor";
   "as_completed"; "List"; "Dict"; "Optional"; "Callable"; "dataclass";
   "datetime"; "CronTab"; "json"; "logger"; "SDKException";
   "ConfigurationError"; "AuthenticationError"; "APIError";
   "SchedulingError"; "ValidationError"; "ProcessingResult"; "Config";
   "Authenticator"; "APIClient"; "DocumentProcessor";
   "DocumentProcessingScheduler"; "DocumentProcessingSDK"].

(** [Authenticator.authenticate]: returns the key path. *)
Definition authenticate (config : gmap string string)
    (fs : gmap string file) : outcome string :=
  let json_key_path := config !! "GCP_JSON_KEY_PATH" in
  let body :=
    if negb (truthy json_key_path) then Raises (not_found json_key_path)
    else
      match name_lookup module_globals "os" with
      | Raises e => Raises e
      | Returns _ =>
          if negb (exists_path fs (fmt json_key_path))
          then Raises (not_found json_key_path)
          else
            match open_json_load fs (fmt json_key_path) with
            | Raises e => Raises e
            | Returns _ => Returns (fmt json_key_path)
            end
      end in
  match body with
  | Returns path => Returns path
  | Raises e =>
      if isinstance e AuthenticationError then Raises e
      else Raises (Exn AuthenticationError "Authentication failed" (wrap e))
  end.

(** [APIClient.post] *)
Definition post (reply : outcome response) : outcome json :=
  match post_json reply with
  | Returns data => Returns data
  | Raises e =>
      if isinstance e RequestException
      then Raises (Exn APIError ("API request failed: " +:+ str e) (wrap e))
      else Raises e
  end.

(** [DocumentProcessor.process_document]: the handler logs and re-raises. *)
Definition process_document (reply : outcome response) (now : nat)
    (u : string) : list event * outcome ProcessingResult :=
  ([Post u],
   match post reply with
   | Raises e => Raises e
   | Returns data => result_of_data u now data
   end).

(** The loop over [as_completed]: every exception of a future becomes a
    failed result, and the counter moves after the [try] statement. *)
Fixpoint collect (total : nat) (done : list (future ProcessingResult))
    (now : string -> nat) (results : list ProcessingResult)
    (completed : nat) : list event * list ProcessingResult :=
  match done with
  | [] => ([], results)
  | f :: rest =>
      let u := fut_url f in
      let results :=
        match fut_result f with
        | Returns result => results ++ [result]
        | Raises e => results ++ [failed_result u (now u) (str e)]
        end in
      let completed := S completed in
      let '(tr, out) := collect total rest now results completed in
      (LogProgress completed total :: tr, out)
  end.

Definition process_batch (net : nat -> outcome response)
    (clock : nat -> nat) (now : string -> nat) (urls : list string)
    (max_workers : Z) (order : list nat)
    : list event * outcome (list ProcessingResult) :=
  match urls with
  | [] =>
      ([], Raises (Exn ValidationError "No URLs provided for processing"
                       None))
  | _ =>
      match ThreadPoolExecutor max_workers with
      | Raises e => ([], Raises e)
      | Returns _ =>
          let futures :=
            submit_all (fun i u => process_document (net i) (clock i) u)
                       urls in
          let '(tr, out) :=
            collect (length urls) (as_completed futures order) now [] 0 in
          (worker_events futures ++ tr, Returns out)
      end
  end.

Record Scheduler : Type := mkScheduler {
  script_path : string;
  cron : list CronItem
}.

Definition init (path : string) (tab : list CronItem) : Scheduler :=
  mkScheduler path tab.

Definition schedule_job (valid : string -> bool) (self : Scheduler)
    (tab : list CronItem) (schedule label : string)
    : Scheduler * list CronItem * outcome CronItem :=
  let fail (crons : list CronItem) (e : exn) :=
    (mkScheduler (script_path self) crons, tab,
     Raises (Exn SchedulingError ("Failed to schedule job: " +:+ str e)
                 (wrap e))) in
  let existing_jobs := find_comment (cron self) label in
  match remove_each existing_jobs (cron self) with
  | (crons, Raises e) => fail crons e
  | (crons, Returns _) =>
      let job := new ("python " +:+ script_path self) label in
      match setall valid job schedule with
      | Raises e => fail (crons ++ [job]) e
      | Returns job' =>
          (mkScheduler (script_path self) (crons ++ [job']),
           crons ++ [job'], Returns job')
      end
  end.

End ProductionSdk2.

(** ** forge/auth.py *)

Module ForgeAuth.

(** The module imports [json] and [AuthenticationError] and defines
    [Authenticator]; nothing else is bound. *)
Definition module_globals : list string :=
  ["json"; "AuthenticationError"; "Authenticator"].

(** [Authenticator.authenticate]: returns the loaded credentials. *)
Definition authenticate (config : gmap string string)
    (fs : gmap string file) : outcome string :=
  let json_key_path := config !! "GCP_JSON_KEY_PATH" in
  let body :=
    if negb (truthy json_key_path) then Raises (not_found json_key_path)
    else
      match name_lookup module_globals "os" with
      | Raises e => Raises e
      | Returns _ =>
          if negb (exists_path fs (fmt json_key_path))
          then Raises (not_found json_key_path)
          else open_json_load fs (fmt json_key_path)
      end in
  match body with
  | Returns credentials => Returns credentials
  | Raises e =>
      if isinstance e AuthenticationError then Raises e
      else Raises (Exn AuthenticationError "Authentication failed" (wrap e))
  end.

End ForgeAuth.

(** ** forge/config.py *)

Module ForgeConfig.

(** What [yaml.safe_load] makes of a file: a mapping (a [null] value is
    [None]), some other document (empty, a list, a scalar), or an error. *)
Inductive yaml_document : Type :=
  | YamlMapping (d : gmap string (option string))
  | YamlOther
  | YamlError (e : exn).

Record Config : Type := mkConfig {
  config_path : string;
  config : gmap string (option string)
}.

Definition required_fields : list string := ["API_ENDPOINT"; "API_KEY"].

(** The dict built from [os.getenv]: three keys, [None] for an unset
    variable. *)
Definition environ (env : gmap string string) : gmap string (option string) :=
  <["API_ENDPOINT" := env !! "API_ENDPOINT"]>
    (<["API_KEY" := env !! "API_KEY"]>
       (<["GCP_JSON_KEY_PATH" := env !! "GCP_JSON_KEY_PATH"]> ∅)).

(** [_load_config]: [None] stands for a loaded value that is not a dict. *)
Definition _load_config (fs : gmap string yaml_document)
    (env : gmap string string) (path : string)
    : outcome (option (gmap string (option string))) :=
  match fs !! path with
  | Some (YamlMapping d) => Returns (Some d)
  | Some YamlOther => Returns None
  | Some (YamlError e) =>
      Raises (Exn ConfigurationError "Failed to load configuration" (wrap e))
  | None => Returns (Some (environ env))
  end.

(** [dict.get(key)]: a key bound to [None] reads like a missing key. *)
Definition dict_get (d : gmap string (option string)) (k : string)
    : option string :=
  default None (d !! k).

(** [_validate_config] *)
Definition _validate_config (loaded : option (gmap string (option string)))
    : outcome unit :=
  match loaded with
  | None => Raises (Exn AttributeError "object has no attribute 'get'" None)
  | Some d =>
      let missing_fields :=
        List.filter (fun field => negb (truthy (dict_get d field)))
                    required_fields in
      match missing_fields with
      | [] => Returns tt
      | _ =>
          Raises (Exn ConfigurationError
                      ("Missing required configuration: "
                         +:+ String.concat ", " missing_fields) None)
      end
  end.

(** [Config(config_path)]; [default_path] is the [env.yaml] next to the
    module. *)
Definition init (fs : gmap string yaml_document) (env : gmap string string)
    (default_path : string) (path : option string) : outcome Config :=
  let path := if truthy path then fmt path else default_path in
  match _load_config fs env path with
  | Raises e => Raises e
  | Returns loaded =>
      match _validate_config loaded with
      | Raises e => Raises e
      | Returns _ =>
          match loaded with
          | Some d => Returns (mkConfig path d)
          | None =>
              Raises (Exn AttributeError "object has no attribute 'get'" None)
          end
      end
  end.

Definition get (self : Config) (k : string) : option string :=
  dict_get (config self) k.

End ForgeConfig.

(** ** production-sdk.py: [Authenticator] *)

Module ProductionSdkAuth.

(** [Authenticator.authenticate]: the test of the path stands before the
    [try] statement; the module imports [os]. *)
Definition authenticate (config : gmap string string)
    (fs : gmap string file) : outcome string :=
  let json_key_path := config !! "GCP_JSON_KEY_PATH" in
  if negb (truthy json_key_path)
     || negb (exists_path fs (fmt json_key_path))
  then Raises (not_found json_key_path)
  else
    match open_json_load fs (fmt json_key_path) with
    | Returns _ => Returns (fmt json_key_path)
    | Raises e =>
        Raises (Exn AuthenticationError
                    ("Authentication failed: " +:+ str e) None)
    end.

End ProductionSdkAuth.

(** ** Failure classes of the specification *)


(** A reply that the specification calls retryable: no reply at all
    (network failure) or a 5xx status. *)
Definition retryable (reply : outcome response) : bool :=
  match reply with
  | Raises _ => true
  | Returns r => (500 <=? status_code r)%Z && (status_code r <? 600)%Z
  end.

(** A reply that [process_document] of production-sdk.py and
    production-sdk (1).py is written for: a JSON object, or a failure of
    class [RequestException]. *)
Definition anticipated (reply : outcome response) : bool :=
  match post_json reply with
  | Returns (JObject _) => true
  | Returns JOther => false
  | Raises e => isinstance e RequestException
  end.

(** The delays [delay * 2 ^ k] for [k = 0 .. n - 1]. *)
Definition backoff_delays (delay : Z) (n : Z) : list Z :=
  (fun k => delay * 2 ^ k)%Z <$> seqZ 0 n.

(** What the collecting loop of production-sdk (2).py records for a
    finished future. *)
Definition terminal (now : string -> nat) (f : future ProcessingResult)
    : ProcessingResult :=
  match fut_result f with
  | Returns result => result
  | Raises e => failed_result (fut_url f) (now (fut_url f)) (str e)
  end.

(** ** Auxiliary notions and sample inputs *)

(** A 404 reply. *)
Definition not_found_reply : outcome response :=
  Returns (Response 404 (Returns (JObject ∅))).

(** A 503 reply. *)
Definition unavailable_reply : outcome response :=
  Returns (Response 503 (Returns (JObject ∅))).

(** The value of a future whose worker returned. *)
Definition returned {A} (f : future A) : option A :=
  match fut_result f with
  | Returns a => Some a
  | Raises _ => None
  end.

(** A worker that returned a result for the url it was given. *)
Definition answers (f : future ProcessingResult) : Prop :=
  exists r, fut_result f = Returns r /\ url r = fut_url f.

(** A worker whose result, if any, is for the url it was given. *)
Definition faithful (f : future ProcessingResult) : Prop :=
  forall r, fut_result f = Returns r -> url r = fut_url f.

(** Workers that made exactly one transport call each. *)
Definition one_post {A} (f : future A) : Prop :=
  fut_events f = [Post (fut_url f)].

(** A worker that returned, or raised the [APIError] the loop handles. *)
Definition handled_v1 (f : future ProcessingResult) : Prop :=
  forall e, fut_result f = Raises e -> isinstance e APIError = true.

(** A 200 reply with the body [{"status": "completed"}]. *)
Definition completed_reply : outcome response :=
  Returns (Response 200 (Returns (JObject {["status" := "completed"]}))).

(** A 200 reply whose body is JSON but not an object, e.g. [[]]. *)
Definition array_reply : outcome response :=
  Returns (Response 200 (Returns JOther)).

Definition doc1 : string := "https://example.com/doc1.pdf".
Definition doc2 : string := "https://example.com/doc2.pdf".

(** The fixed label of [create_cron_job] and the default cadence. *)
Definition cron_label : string := "Process Documents Cron Job".
Definition daily : string := "0 18 * * *".

Definition key : string := "GCP_JSON_KEY_PATH".

(** The trace of attempts [a .. a + k - 1] that each failed and were
    followed by their backoff sleep. *)
Definition failed_attempts (delay a k : Z) : list event :=
  flat_map (fun j => [Call; Sleep (delay * 2 ^ j)%Z]) (seqZ a k).

(** The time a trace spends asleep. *)
Definition total_sleep (tr : list event) : Z := foldr Z.add 0%Z (sleeps tr).

(** A reply that carries a result: an accepted status and a JSON object. *)
Definition healthy (reply : outcome response) : bool :=
  match post_json reply with
  | Returns (JObject _) => true
  | _ => false
  end.

(** An environment with both required variables set. *)
Definition sample_env : gmap string string :=
  <["API_ENDPOINT" := "https://api.example.com"]> {["API_KEY" := "secret"]}.

(** * Properties *)

(** ** Traces *)

Lemma calls_cons_call tr : calls (Call :: tr) = S (calls tr).
Proof. reflexivity. Qed.

Lemma calls_cons_sleep d tr : calls (Sleep d :: tr) = calls tr.
Proof. reflexivity. Qed.

Lemma sleeps_cons_call tr : sleeps (Call :: tr) = sleeps tr.
Proof. reflexivity. Qed.

Lemma sleeps_cons_sleep d tr : sleeps (Sleep d :: tr) = d :: sleeps tr.
Proof. reflexivity. Qed.

Lemma sleep_nonneg d : (0 <= d)%Z -> sleep d = ([Sleep d], Returns tt).
Proof.
  intros Hd. unfold sleep.
  destruct (Z.ltb_spec d 0) as [Hlt | _]; [lia | reflexivity].
Qed.

(** ** forge/utils.py: [retry] *)

Section ForgeRetry.
Context {A : Type}.
Variable func : nat -> outcome A.
Variable err : nat -> exn.
Hypothesis always_fails : forall k, func k = Raises (err k).

(** The loop from attempt [a] on, with [S n] attempts left of [retries]. *)
Lemma retry_loop_all_fail (retries delay : Z) (n : nat) :
  (0 <= delay)%Z ->
  forall (a : Z) (k : nat),
    (0 <= a)%Z -> (a + Z.of_nat (S n) = retries)%Z ->
    exists tr,
      ForgeUtils.retry_loop func retries delay (seqZ a (Z.of_nat (S n))) k
        = (tr, Raises (err (k + n)))
      /\ calls tr = S n
      /\ sleeps tr = (fun j => delay * 2 ^ j)%Z <$> seqZ a (Z.of_nat n).
Proof.
  intros Hdelay. induction n as [| n IH]; intros a k Ha Hsum.
  - exists [Call]. rewrite seqZ_cons by lia. simpl.
    rewrite always_fails, Nat.add_0_r.
    destruct (Z.eqb_spec a (retries - 1)) as [_ | Hne]; [| lia].
    auto.
  - rewrite seqZ_cons by lia. cbn [ForgeUtils.retry_loop].
    rewrite always_fails.
    destruct (Z.eqb_spec a (retries - 1)) as [Heq | _]; [lia |].
    rewrite sleep_nonneg by (apply Z.mul_nonneg_nonneg; [lia |];
                             apply Z.pow_nonneg; lia).
    replace (Z.pred (Z.of_nat (S (S n)))) with (Z.of_nat (S n)) by lia.
    destruct (IH (Z.succ a) (S k)) as (tr & Heq & Hcalls & Hsleeps);
      [lia | lia |].
    rewrite Heq. eexists. split; [| split].
    + replace (k + S n) with (S k + n) by lia. reflexivity.
    + cbn [app]. rewrite calls_cons_call, calls_cons_sleep, Hcalls.
      reflexivity.
    + cbn [app]. rewrite sleeps_cons_call, sleeps_cons_sleep, Hsleeps.
      rewrite (seqZ_cons a (Z.of_nat (S n))) by lia.
      replace (Z.pred (Z.of_nat (S n))) with (Z.of_nat n) by lia.
      reflexivity.
Qed.

(** With a budget of at least one attempt and a delay that [sleep]
    accepts, a function that fails every time is called [retries] times,
    the delays [delay * 2 ^ k] for [k = 0 .. retries - 2] lie between the
    calls, and the last error is raised. *)
Lemma retry_exhausts_budget (retries delay : Z) :
  (1 <= retries)%Z -> (0 <= delay)%Z ->
  exists tr,
    ForgeUtils.retry func retries delay
      = (tr, Raises (err (Z.to_nat retries - 1)))
    /\ calls tr = Z.to_nat retries
    /\ sleeps tr = backoff_delays delay (retries - 1).
Proof.
  intros Hretries Hdelay. unfold ForgeUtils.retry, range, backoff_delays.
  destruct (retry_loop_all_fail retries delay (Z.to_nat retries - 1) Hdelay
              0%Z 0) as (tr & Heq & Hcalls & Hsleeps); [lia | lia |].
  exists tr.
  replace (Z.of_nat (S (Z.to_nat retries - 1))) with retries in Heq by lia.
  replace (Z.of_nat (Z.to_nat retries - 1)) with (retries - 1)%Z
    in Hsleeps by lia.
  rewrite Heq, Hcalls, Hsleeps. split; [reflexivity | split; [lia | done]].
Qed.

End ForgeRetry.

(** C10. forge/utils.py: with [retries <= 0] the loop of [retry] has no
    iteration, so the function is never called, nothing is raised, and the
    caller gets [None]. *)
Theorem retry_nonpositive_returns_none :
  forall (A : Type) (func : nat -> outcome A) (retries delay : Z),
    (retries <= 0)%Z ->
    ForgeUtils.retry func retries delay = ([], Returns None).
Proof.
  intros A func retries delay Hretries.
  unfold ForgeUtils.retry, range. rewrite seqZ_nil by lia. reflexivity.
Qed.

Lemma retry_nonpositive_returns_none_witness :
  (-1 <= 0)%Z /\
  ForgeUtils.retry (fun _ => Returns 7) (-1) 2 = ([], Returns None)
  /\ calls (ForgeUtils.retry (fun _ => Returns 7) (-1) 2).1 = 0.
Proof.
  split; [lia |].
  rewrite (retry_nonpositive_returns_none nat (fun _ => Returns 7) (-1) 2);
    [split; reflexivity | lia].
Defined.

(** ** Failure classes and the transport *)



(** ** production-sdk.py: [process_document] *)

(** Whatever the body of [process_document] returns, the decorator hands
    on after that single call. *)
Lemma process_document_returns net now u r :
  (ProductionSdk.process_document_body (net 0) now u).2 = Returns r ->
  ProductionSdk.process_document net now u = ([Post u], Returns r).
Proof.
  unfold ProductionSdk.process_document, on_exception. simpl.
  unfold ProductionSdk.process_document_body. simpl. intros ->. reflexivity.
Qed.

(** A failure of class [RequestException] never reaches the decorator: the
    body turns it into a failed result. *)
Lemma process_document_request_exception net now u e :
  post_json (net 0) = Raises e ->
  isinstance e RequestException = true ->
  ProductionSdk.process_document net now u
    = ([Post u], Returns (failed_result u now (str e))).
Proof.
  intros Hpost Hcls. apply process_document_returns.
  unfold ProductionSdk.process_document_body. simpl.
  rewrite Hpost, Hcls. reflexivity.
Qed.

Lemma process_document_anticipated net now u :
  anticipated (net 0) = true ->
  exists r,
    ProductionSdk.process_document net now u = ([Post u], Returns r)
    /\ url r = u.
Proof.
  unfold anticipated. intros Hant.
  destruct (post_json (net 0)) as [[d |] | e] eqn:Hpost; [| discriminate |].
  - exists (mkResult u (default "completed" (d !! "status")) now
                     (d !! "metadata") None).
    split; [| reflexivity]. apply process_document_returns.
    unfold ProductionSdk.process_document_body. simpl. rewrite Hpost.
    reflexivity.
  - exists (failed_result u now (str e)). split; [| reflexivity].
    by apply process_document_request_exception.
Qed.




(** C5, at the failing inputs.  A transport that answers 503 every time is
    retryable by the specification, yet [process_document] of
    production-sdk.py calls it once (its decorator never sees the error),
    and [retry] of sdk_0.py sleeps a third time, for 8, after the last
    failed attempt. *)
Theorem retryable_failure_budget_not_met :
  retryable unavailable_reply = true
  /\ (forall (now : nat) (u : string),
        ProductionSdk.process_document (fun _ => unavailable_reply) now u
          = ([Post u], Returns (failed_result u now "Server Error")))
  /\ Sdk0.retry (fun _ => post_json unavailable_reply) 3 2
     = ([Call; Sleep 2; Call; Sleep 4; Call; Sleep 8],
        Raises (Exn PlainException "All 3 retries failed." None)).
Proof. split; [| split]; reflexivity. Qed.



(** ** The worker pool *)

Section Pool.
Context {A : Type}.
Implicit Types (fs : list (future A)) (urls : list string).

Lemma lookup_each_position (pre fs : list (future A)) :
  omap (fun i => (pre ++ fs) !! i) (seq (length pre) (length fs)) = fs.
Proof.
  revert pre. induction fs as [| f fs IH]; intros pre; [reflexivity |].
  simpl. rewrite list_lookup_middle by reflexivity. f_equal.
  specialize (IH (pre ++ [f])).
  rewrite <- app_assoc, length_app in IH. simpl in IH.
  rewrite Nat.add_1_r in IH. exact IH.
Qed.

(** [as_completed] hands out every future once, whatever the order. *)
Lemma as_completed_perm fs (order : list nat) :
  order ≡ₚ seq 0 (length fs) -> as_completed fs order ≡ₚ fs.
Proof.
  intros Horder. unfold as_completed. rewrite Horder.
  pose proof (lookup_each_position [] fs) as Hall. simpl in Hall.
  by rewrite Hall.
Qed.

Lemma as_completed_nil (order : list nat) :
  as_completed (@nil (future A)) order = [].
Proof. unfold as_completed. induction order; [done | by simpl]. Qed.

Variable worker : nat -> string -> list event * outcome A.

Lemma submit_all_length urls :
  length (submit_all worker urls) = length urls.
Proof. apply length_imap. Qed.

Lemma submit_all_urls urls : fut_url <$> submit_all worker urls = urls.
Proof.
  unfold submit_all. apply list_eq. intros i.
  rewrite list_lookup_fmap, list_lookup_imap.
  by destruct (urls !! i).
Qed.

Lemma submit_all_Forall (P : future A -> Prop) urls :
  (forall i u, urls !! i = Some u ->
     P (Future u (worker i u).1 (worker i u).2)) ->
  Forall P (submit_all worker urls).
Proof.
  intros Hall. apply Forall_lookup. intros i f.
  unfold submit_all. rewrite list_lookup_imap.
  destruct (urls !! i) as [u |] eqn:Hi; [| discriminate].
  simpl. intros [= <-]. by apply Hall.
Qed.

End Pool.

Lemma terminal_url now (fs : list (future ProcessingResult)) :
  Forall faithful fs -> url <$> (terminal now <$> fs) = fut_url <$> fs.
Proof.
  induction 1 as [| f fs Hf _ IH]; [reflexivity |].
  rewrite !fmap_cons, IH. f_equal. unfold terminal.
  destruct (fut_result f) as [r |] eqn:Hr; [by apply Hf | reflexivity].
Qed.

Lemma returned_all (fs : list (future ProcessingResult)) :
  Forall answers fs ->
  length (omap returned fs) = length fs
  /\ url <$> omap returned fs = fut_url <$> fs.
Proof.
  induction 1 as [| f fs (r & Hr & Hurl) _ [IHlen IHurl]]; [done |].
  assert (omap returned (f :: fs) = r :: omap returned fs) as ->.
  { cbn [omap list_omap]. unfold returned at 1. by rewrite Hr. }
  rewrite !fmap_cons. simpl. by rewrite IHlen, IHurl, Hurl.
Qed.

Lemma notifications_app tr1 tr2 :
  notifications (tr1 ++ tr2) = notifications tr1 ++ notifications tr2.
Proof. apply flat_map_app. Qed.

Lemma progress_lines_app tr1 tr2 :
  progress_lines (tr1 ++ tr2) = progress_lines tr1 ++ progress_lines tr2.
Proof. apply flat_map_app. Qed.

Lemma posts_app tr1 tr2 : posts (tr1 ++ tr2) = posts tr1 + posts tr2.
Proof. unfold posts. by rewrite filter_app, length_app. Qed.

Lemma worker_events_one_post {A} (fs : list (future A)) :
  Forall one_post fs ->
  posts (worker_events fs) = length fs
  /\ notifications (worker_events fs) = []
  /\ progress_lines (worker_events fs) = [].
Proof.
  unfold worker_events.
  induction 1 as [| f fs Hf _ (IHp & IHn & IHl)]; [done |].
  rewrite fmap_cons. cbn [concat].
  rewrite posts_app, notifications_app, progress_lines_app.
  rewrite IHp, IHn, IHl, Hf. done.
Qed.

Lemma pool_accepts (max_workers : Z) :
  (0 < max_workers)%Z -> ThreadPoolExecutor max_workers = Returns tt.
Proof.
  intros Hpos. unfold ThreadPoolExecutor.
  destruct (Z.leb_spec max_workers 0); [lia | reflexivity].
Qed.

(** ** production-sdk (2).py: [process_batch] *)

Lemma collect_v2 total now done :
  forall results completed,
    ProductionSdk2.collect total done now results completed
    = ((fun c => LogProgress c total) <$> seq (S completed) (length done),
       results ++ (terminal now <$> done)).
Proof.
  induction done as [| f done IH]; intros results completed.
  - simpl. by rewrite app_nil_r.
  - cbn [ProductionSdk2.collect]. rewrite IH. cbn [length seq].
    rewrite !fmap_cons. f_equal. unfold terminal at 2.
    destruct (fut_result f); by rewrite <- app_assoc.
Qed.

Lemma futures_v2 net clock urls :
  let fs := submit_all
              (fun i u => ProductionSdk2.process_document (net i) (clock i) u)
              urls in
  Forall faithful fs /\ Forall one_post fs.
Proof.
  split; apply submit_all_Forall; intros i u _; [| reflexivity].
  intros r. unfold ProductionSdk2.process_document. simpl.
  destruct (ProductionSdk2.post (net i)) as [[d |] | e]; simpl;
    [| discriminate | discriminate].
  by intros [= <-].
Qed.

Lemma process_batch_v2_nonempty net clock now urls max_workers order :
  urls <> [] -> (0 < max_workers)%Z ->
  let fs := submit_all
              (fun i u => ProductionSdk2.process_document (net i) (clock i) u)
              urls in
  ProductionSdk2.process_batch net clock now urls max_workers order
  = (worker_events fs
       ++ ((fun c => LogProgress c (length urls))
             <$> seq 1 (length (as_completed fs order))),
     Returns (terminal now <$> as_completed fs order)).
Proof.
  intros Hne Hpos. unfold ProductionSdk2.process_batch.
  destruct urls as [| u urls]; [done |].
  rewrite pool_accepts by done. by rewrite collect_v2.
Qed.

(** Every future ends as exactly one entry of the result: the worker's own
    result, or a failed result for its url carrying the message of whatever
    it raised. *)
Lemma process_batch_v2_isolates_failures net clock now urls max_workers order :
  urls <> [] -> (0 < max_workers)%Z -> order ≡ₚ seq 0 (length urls) ->
  let fs := submit_all
              (fun i u => ProductionSdk2.process_document (net i) (clock i) u)
              urls in
  exists tr results,
    ProductionSdk2.process_batch net clock now urls max_workers order
      = (tr, Returns results)
    /\ results ≡ₚ terminal now <$> fs
    /\ posts tr = length urls
    /\ progress_lines tr = (fun c => (c, length urls)) <$> seq 1 (length urls).
Proof.
  intros Hne Hpos Horder fs.
  rewrite process_batch_v2_nonempty by done. fold fs.
  assert (as_completed fs order ≡ₚ fs) as Hperm.
  { apply as_completed_perm. unfold fs. by rewrite submit_all_length. }
  destruct (futures_v2 net clock urls) as [_ Hone]. fold fs in Hone.
  destruct (worker_events_one_post fs Hone) as (Hposts & _ & Hlines).
  eexists _, _. split; [reflexivity | split; [by rewrite Hperm | split]].
  - rewrite posts_app, Hposts. unfold fs at 1. rewrite submit_all_length.
    assert (forall l, posts ((fun c => LogProgress c (length urls)) <$> l) = 0)
      as -> by (induction l; done). lia.
  - rewrite progress_lines_app, Hlines, Hperm. unfold fs.
    rewrite submit_all_length. simpl. generalize (seq 1 (length urls)).
    induction l as [| c l IH]; [done |]. rewrite !fmap_cons. simpl.
    by rewrite IH.
Qed.

(** ** production-sdk.py: [process_batch] *)

Lemma collect_v0 callback total done :
  Forall answers done ->
  forall results completed,
    ProductionSdk.collect callback total done results completed
    = ((fun c => if callback then Progress c total else LogProgress c total)
         <$> seq (S completed) (length done),
       Returns (results ++ omap returned done)).
Proof.
  induction 1 as [| f done (r & Hr & _) _ IH]; intros results completed.
  - simpl. by rewrite app_nil_r.
  - cbn [ProductionSdk.collect]. rewrite Hr, IH. cbn [length seq omap list_omap].
    unfold returned at 2. rewrite Hr, fmap_cons, <- app_assoc. done.
Qed.

Lemma futures_v0 net clock urls :
  (forall i, i < length urls -> anticipated (net i 0) = true) ->
  let fs := submit_all
              (fun i u => ProductionSdk.process_document (net i) (clock i) u)
              urls in
  Forall answers fs /\ Forall one_post fs.
Proof.
  intros Hant.
  split; apply submit_all_Forall; intros i u Hi;
    apply lookup_lt_Some in Hi;
    destruct (process_document_anticipated (net i) (clock i) u (Hant i Hi))
      as (r & Heq & Hurl); unfold answers, one_post; rewrite Heq; simpl; eauto.
Qed.

(** ** production-sdk (1).py: [process_batch] *)

Lemma collect_v1 total now done :
  Forall handled_v1 done ->
  forall results completed,
    exists tr,
      ProductionSdk1.collect total done now results completed
      = (tr, Returns (results ++ (terminal now <$> done))).
Proof.
  induction 1 as [| f done Hf _ IH]; intros results completed.
  - exists []. simpl. by rewrite app_nil_r.
  - cbn [ProductionSdk1.collect]. rewrite fmap_cons. unfold terminal at 1.
    destruct (fut_result f) as [r | e] eqn:Hr.
    + destruct (IH (results ++ [r]) (S completed)) as [tr ->].
      eexists. by rewrite <- app_assoc.
    + rewrite (Hf e Hr).
      destruct (IH (results ++ [failed_result (fut_url f) (now (fut_url f))
                                              (str e)]) completed) as [tr ->].
      eexists. by rewrite <- app_assoc.
Qed.

Lemma futures_v1 net clock urls :
  (forall i, i < length urls -> anticipated (net i) = true) ->
  let fs := submit_all
              (fun i u => ProductionSdk1.process_document (net i) (clock i) u)
              urls in
  Forall faithful fs /\ Forall handled_v1 fs.
Proof.
  intros Hant.
  split; apply submit_all_Forall; intros i u Hi;
    apply lookup_lt_Some in Hi; specialize (Hant i Hi);
    unfold anticipated in Hant; unfold faithful, handled_v1;
    unfold ProductionSdk1.process_document; simpl;
    destruct (post_json (net i)) as [[d |] | e]; simpl; try discriminate.
  - by intros r [= <-].
  - rewrite Hant. discriminate.
  - rewrite Hant. by intros e' [= <-].
Qed.

Lemma notes_notifications (total : nat) (l : list nat) :
  notifications ((fun c => Progress c total) <$> l)
  = (fun c => (c, total)) <$> l.
Proof.
  induction l as [| c l IH]; [done |]. rewrite !fmap_cons. simpl.
  by rewrite IH.
Qed.

Lemma notes_posts (note : nat -> event) (l : list nat) :
  (forall c, is_post (note c) = false) -> posts (note <$> l) = 0.
Proof.
  intros Hnote. unfold posts. induction l as [| c l IH]; [done |].
  rewrite fmap_cons, filter_cons. specialize (Hnote c).
  destruct (decide (is_post (note c))) as [Hp | _]; [| exact IH].
  rewrite Hnote in Hp. destruct Hp.
Qed.

(** production-sdk.py, when every reply is one [process_document] is
    written for: one result per url, one transport call per url, and, with
    a callback attached, the notifications [(1, N) .. (N, N)]. *)
Lemma process_batch_v0_complete net clock urls max_workers callback order :
  (0 < max_workers)%Z -> order ≡ₚ seq 0 (length urls) ->
  (forall i, i < length urls -> anticipated (net i 0) = true) ->
  exists tr results,
    ProductionSdk.process_batch net clock urls max_workers callback order
      = (tr, Returns results)
    /\ length results = length urls
    /\ url <$> results ≡ₚ urls
    /\ posts tr = length urls
    /\ (callback = true ->
        notifications tr = (fun c => (c, length urls)) <$> seq 1 (length urls)).
Proof.
  intros Hpos Horder Hant. unfold ProductionSdk.process_batch.
  rewrite pool_accepts by done.
  set (fs := submit_all
               (fun i u => ProductionSdk.process_document (net i) (clock i) u)
               urls).
  destruct (futures_v0 net clock urls Hant) as [Hans Hone].
  fold fs in Hans, Hone.
  assert (as_completed fs order ≡ₚ fs) as Hperm.
  { apply as_completed_perm. unfold fs. by rewrite submit_all_length. }
  assert (length fs = length urls) as Hlen by apply submit_all_length.
  destruct (returned_all fs Hans) as [Hrlen Hrurl].
  destruct (worker_events_one_post fs Hone) as (Hposts & Hnotes & _).
  rewrite collect_v0 by (by rewrite Hperm).
  eexists _, _. split; [reflexivity |]. simpl.
  split; [by rewrite Hperm, Hrlen |].
  split; [by rewrite Hperm, Hrurl; unfold fs; rewrite submit_all_urls |].
  split.
  - rewrite posts_app, Hposts, notes_posts, Hlen; [lia |].
    by destruct callback.
  - intros ->. by rewrite notifications_app, Hnotes, notes_notifications,
                          Hperm, Hlen.
Qed.

(** production-sdk (1).py, under the same condition. *)
Lemma process_batch_v1_complete net clock now urls max_workers order :
  (0 < max_workers)%Z -> order ≡ₚ seq 0 (length urls) ->
  (forall i, i < length urls -> anticipated (net i) = true) ->
  exists tr results,
    ProductionSdk1.process_batch net clock now urls max_workers order
      = (tr, Returns results)
    /\ length results = length urls
    /\ url <$> results ≡ₚ urls.
Proof.
  intros Hpos Horder Hant. unfold ProductionSdk1.process_batch.
  rewrite pool_accepts by done.
  set (fs := submit_all
               (fun i u => ProductionSdk1.process_document (net i) (clock i) u)
               urls).
  destruct (futures_v1 net clock urls Hant) as [Hfaith Hhandled].
  fold fs in Hfaith, Hhandled.
  assert (as_completed fs order ≡ₚ fs) as Hperm.
  { apply as_completed_perm. unfold fs. by rewrite submit_all_length. }
  destruct (collect_v1 (length urls) now (as_completed fs order)) with
    (results := @nil ProcessingResult) (completed := 0) as [tr ->];
    [by rewrite Hperm |].
  eexists _, _. split; [reflexivity |]. simpl. rewrite Hperm. split.
  - rewrite length_fmap. apply submit_all_length.
  - rewrite terminal_url by done. unfold fs. by rewrite submit_all_urls.
Qed.

(** Where one outcome per url does hold.  For a non-empty list of N urls
    and a pool size the executor accepts, [process_batch] returns N
    results, and the urls of the results are the submitted urls, each as
    often as it was submitted, in whatever order the futures complete.
    production-sdk (2).py: whatever the transport does.  production-sdk.py
    and production-sdk (1).py: only when each reply is a JSON object or a
    failure of class [RequestException]. *)
Theorem process_batch_one_outcome_per_item :
  forall (urls : list string) (max_workers : Z) (order : list nat),
    urls <> [] -> (0 < max_workers)%Z -> order ≡ₚ seq 0 (length urls) ->
    (forall net clock now,
       exists tr results,
         ProductionSdk2.process_batch net clock now urls max_workers order
           = (tr, Returns results)
         /\ length results = length urls
         /\ url <$> results ≡ₚ urls)
    /\ (forall net clock callback,
          (forall i, i < length urls -> anticipated (net i 0) = true) ->
          exists tr results,
            ProductionSdk.process_batch net clock urls max_workers callback
                                        order
              = (tr, Returns results)
            /\ length results = length urls
            /\ url <$> results ≡ₚ urls)
    /\ (forall net clock now,
          (forall i, i < length urls -> anticipated (net i) = true) ->
          exists tr results,
            ProductionSdk1.process_batch net clock now urls max_workers order
              = (tr, Returns results)
            /\ length results = length urls
            /\ url <$> results ≡ₚ urls).
Proof.
  intros urls max_workers order Hne Hpos Horder. split; [| split].
  - intros net clock now.
    destruct (process_batch_v2_isolates_failures net clock now urls
                max_workers order Hne Hpos Horder)
      as (tr & results & Heq & Hperm & _).
    exists tr, results. split; [exact Heq |]. rewrite Hperm.
    destruct (futures_v2 net clock urls) as [Hfaith _].
    rewrite length_fmap, submit_all_length, terminal_url by done.
    by rewrite submit_all_urls.
  - intros net clock callback Hant.
    destruct (process_batch_v0_complete net clock urls max_workers callback
                order Hpos Horder Hant)
      as (tr & results & Heq & Hlen & Hurls & _).
    by exists tr, results.
  - intros net clock now Hant.
    by apply process_batch_v1_complete.
Qed.

Lemma process_batch_one_outcome_per_item_witness :
  [doc1; doc2] <> [] /\ (0 < 5)%Z /\ [1; 0] ≡ₚ seq 0 (length [doc1; doc2]) /\
  exists tr results,
    ProductionSdk2.process_batch
      (fun i => if Nat.eqb i 0 then completed_reply else not_found_reply)
      (fun _ => 0) (fun _ => 0) [doc1; doc2] 5 [1; 0]
    = (tr, Returns results)
    /\ length results = 2
    /\ url <$> results ≡ₚ [doc1; doc2].
Proof.
  split; [discriminate | split; [lia | split; [apply perm_swap |]]].
  apply (process_batch_one_outcome_per_item [doc1; doc2] 5 [1; 0]);
    [discriminate | lia | apply perm_swap].
Defined.

(** C1, at the failing input.  Two urls, the first answered with a
    result, the second with a 200 reply whose body is JSON but not an
    object.  The worker of the second url raises [AttributeError], which
    [process_document] of production-sdk.py and of production-sdk (1).py
    does not handle and which their [process_batch] does not catch: both
    calls raise, with or without a callback, and no list of outcomes is
    returned at all.  production-sdk (2).py returns one outcome per url on
    the same input. *)
Theorem process_batch_drafts_return_no_outcomes :
  forall (clock : nat -> nat) (now : string -> nat) (callback : bool),
    let net i := if Nat.eqb i 0 then completed_reply else array_reply in
    let escaped := Exn AttributeError "object has no attribute 'get'" None in
    ProductionSdk.process_batch (fun i _ => net i) clock [doc1; doc2] 5
                                callback [0; 1]
      = ([Post doc1; Post doc2;
          if callback then Progress 1 2 else LogProgress 1 2],
         Raises escaped)
    /\ ProductionSdk1.process_batch net clock now [doc1; doc2] 5 [0; 1]
       = ([Post doc1; Post doc2; LogProgress 1 2], Raises escaped)
    /\ exists tr results,
         ProductionSdk2.process_batch net clock now [doc1; doc2] 5 [0; 1]
           = (tr, Returns results)
         /\ length results = 2
         /\ url <$> results = [doc1; doc2].
Proof.
  intros clock now callback. split; [| split].
  - destruct callback; reflexivity.
  - reflexivity.
  - eexists _, _. split; [reflexivity |]. split; reflexivity.
Qed.

(** C2, at the failing input.  production-sdk (1).py handles [APIError]
    only: with two urls of which the second is answered by a JSON value
    that is not an object, the worker's [AttributeError] leaves
    [process_batch], and the result of the first url is lost with it.
    production-sdk (2).py returns both outcomes on the same input. *)
Theorem process_batch_v1_failure_escapes :
  forall (clock : nat -> nat) (now : string -> nat),
    let net i := if Nat.eqb i 0 then completed_reply else array_reply in
    ProductionSdk1.process_batch net clock now [doc1; doc2] 5 [0; 1]
      = ([Post doc1; Post doc2; LogProgress 1 2],
         Raises (Exn AttributeError "object has no attribute 'get'" None))
    /\ ProductionSdk2.process_batch net clock now [doc1; doc2] 5 [0; 1]
       = ([Post doc1; Post doc2; LogProgress 1 2; LogProgress 2 2],
          Returns [mkResult doc1 "completed" (clock 0) None None;
                   failed_result doc2 (now doc2)
                                 "object has no attribute 'get'"]).
Proof. intros clock now. split; reflexivity. Qed.

(** production-sdk (2).py rejects an empty list before the pool exists:
    no transport call, whatever the pool size. *)
Lemma process_batch_v2_rejects_empty net clock now max_workers order :
  ProductionSdk2.process_batch net clock now [] max_workers order
  = ([], Raises (Exn ValidationError "No URLs provided for processing" None)).
Proof. reflexivity. Qed.

(** C3, at the failing input.  production-sdk.py and sdk_0.py have no
    check of the list: an empty list gives an empty result, without any
    transport call and without an error. *)
Theorem empty_batch_returns_empty_list :
  (forall net clock callback order,
     ProductionSdk.process_batch net clock [] 5 callback order
       = ([], Returns []))
  /\ (forall config net, Sdk0.process_documents config net [] = ([], Returns [])).
Proof.
  split; [| reflexivity]. intros net clock callback order.
  unfold ProductionSdk.process_batch. rewrite pool_accepts by lia.
  unfold submit_all. cbn [imap]. by rewrite as_completed_nil.
Qed.

(** C6, at the failing input.  production-sdk (1).py moves its counter in
    the [try] branch only: of two urls of which the second is answered 404,
    both get a result, but progress is reported once, as 1 of 2. *)
Theorem progress_skips_failed_item_v1 :
  forall (clock : nat -> nat) (now : string -> nat),
    let net i := if Nat.eqb i 0 then completed_reply else not_found_reply in
    ProductionSdk1.process_batch net clock now [doc1; doc2] 5 [0; 1]
      = ([Post doc1; Post doc2; LogProgress 1 2],
         Returns [mkResult doc1 "completed" (clock 0) None None;
                  failed_result doc2 (now doc2)
                    "Failed to process document: Client Error"]).
Proof. intros clock now. reflexivity. Qed.

(** X26. production-sdk.py does meet C6 when no worker raises: with a callback
    attached, the notifications of a batch of N urls are
    [(1, N), (2, N), .., (N, N)], failed items included. *)
Lemma progress_notifications_v0 net clock urls max_workers order :
  (0 < max_workers)%Z -> order ≡ₚ seq 0 (length urls) ->
  (forall i, i < length urls -> anticipated (net i 0) = true) ->
  notifications
    (ProductionSdk.process_batch net clock urls max_workers true order).1
  = (fun c => (c, length urls)) <$> seq 1 (length urls).
Proof.
  intros Hpos Horder Hant.
  destruct (process_batch_v0_complete net clock urls max_workers true order
              Hpos Horder Hant)
    as (tr & results & -> & _ & _ & _ & Hnotes).
  by apply Hnotes.
Qed.

(** ** The crontab *)

Lemma remove_first (job : CronItem) (pre rest : list CronItem) :
  job ∉ pre -> remove job (pre ++ job :: rest) = Some (pre ++ rest).
Proof.
  induction pre as [| j pre IH]; intros Hnotin; simpl.
  - by rewrite decide_True.
  - apply not_elem_of_cons in Hnotin as [Hne Hnotin].
    rewrite decide_False by done. by rewrite IH.
Qed.

(** Removing, one by one, the jobs found under a label leaves exactly the
    jobs with another label, and never fails. *)
Lemma remove_each_found (label : string) (crons pre : list CronItem) :
  Forall (fun j => ¬ has_comment label j) pre ->
  remove_each (find_comment crons label) (pre ++ crons)
  = (pre ++ filter (fun j => ¬ has_comment label j) crons, Returns tt).
Proof.
  revert pre. unfold find_comment.
  induction crons as [| j crons IH]; intros pre Hpre.
  - reflexivity.
  - rewrite !filter_cons.
    destruct (decide (has_comment label j)) as [Hj | Hj].
    + rewrite decide_False by tauto. cbn [remove_each].
      rewrite remove_first; [by apply IH |].
      intros Hin. rewrite Forall_forall in Hpre. by apply (Hpre j).
    + rewrite decide_True by done.
      specialize (IH (pre ++ [j])). rewrite <- !app_assoc in IH.
      apply IH. apply Forall_app. split; [done | by constructor].
Qed.

Lemma count_label_replaced (label : string) (crons : list CronItem)
    (job : CronItem) :
  comment job = label ->
  count_label label
    (filter (fun j => ¬ has_comment label j) crons ++ [job]) = 1.
Proof.
  intros Hjob. unfold count_label, find_comment.
  rewrite filter_app, length_app.
  assert (filter (has_comment label)
            (filter (fun j => ¬ has_comment label j) crons) = []) as ->.
  { induction crons as [| j crons IH]; [done |].
    rewrite filter_cons. destruct (decide (¬ has_comment label j)) as [Hj |];
      [| exact IH].
    rewrite filter_cons, decide_False by done. exact IH. }
  rewrite filter_cons, decide_True; [done |].
  unfold has_comment. by rewrite bool_decide_true.
Qed.

Lemma other_labels_kept (label c : string) (crons : list CronItem)
    (job : CronItem) :
  comment job = label -> c <> label ->
  find_comment (filter (fun j => ¬ has_comment label j) crons ++ [job]) c
  = find_comment crons c.
Proof.
  intros Hjob Hc. unfold find_comment. rewrite filter_app.
  assert (filter (has_comment c) [job] = []) as ->.
  { rewrite filter_cons, decide_False; [done |].
    unfold has_comment. rewrite bool_decide_false; [tauto | congruence]. }
  rewrite app_nil_r. induction crons as [| j crons IH]; [done |].
  rewrite !filter_cons.
  destruct (decide (has_comment c j)) as [Hj | Hj].
  - rewrite decide_True.
    + rewrite filter_cons, decide_True by done. by rewrite IH.
    + unfold has_comment in *. apply bool_decide_unpack in Hj.
      rewrite bool_decide_false; [tauto | congruence].
  - destruct (decide (¬ has_comment label j)); [| exact IH].
    rewrite filter_cons, decide_False by done. exact IH.
Qed.

(** X28. production-sdk (2).py and production-sdk.py: a registration that
    [setall] accepts stores the table held by the scheduler, and that table
    has exactly one job under the label, whatever was there before; jobs
    under other labels stay. *)
Lemma schedule_job_v2_replaces valid self tab schedule label :
  valid schedule = true ->
  exists self' job,
    ProductionSdk2.schedule_job valid self tab schedule label
      = (self', ProductionSdk2.cron self', Returns job)
    /\ count_label label (ProductionSdk2.cron self') = 1
    /\ (forall c, c <> label ->
          find_comment (ProductionSdk2.cron self') c
          = find_comment (ProductionSdk2.cron self) c).
Proof.
  intros Hvalid. unfold ProductionSdk2.schedule_job, setall.
  pose proof (remove_each_found label (ProductionSdk2.cron self) [] (List.Forall_nil _))
    as Hrm. simpl in Hrm. rewrite Hrm, Hvalid. simpl.
  eexists (ProductionSdk2.mkScheduler _ _), _.
  split; [reflexivity |]. simpl. split.
  - by apply count_label_replaced.
  - intros c Hc. by apply other_labels_kept.
Qed.

Lemma schedule_job_v0_replaces valid self tab schedule label :
  valid schedule = true ->
  exists self' job,
    ProductionSdk.schedule_job valid self tab schedule label
      = (self', ProductionSdk.cron self', Returns job)
    /\ count_label label (ProductionSdk.cron self') = 1
    /\ (forall c, c <> label ->
          find_comment (ProductionSdk.cron self') c
          = find_comment (ProductionSdk.cron self) c).
Proof.
  intros Hvalid. unfold ProductionSdk.schedule_job, setall.
  pose proof (remove_each_found label (ProductionSdk.cron self) [] (List.Forall_nil _))
    as Hrm. simpl in Hrm. rewrite Hrm, Hvalid. simpl.
  eexists (ProductionSdk.mkScheduler _ _), _.
  split; [reflexivity |]. simpl. split.
  - by apply count_label_replaced.
  - intros c Hc. by apply other_labels_kept.
Qed.

(** C8, at the failing input.  [create_cron_job] of sdk_0.py adds a job
    under its fixed label without looking for an earlier one: called twice
    on an empty table it leaves two jobs under that label. *)
Theorem create_cron_job_accumulates :
  let valid (_ : string) := true in
  let tab1 := (Sdk0.create_cron_job valid [] "sdk.py" daily).1 in
  let tab2 := (Sdk0.create_cron_job valid tab1 "sdk.py" daily).1 in
  count_label cron_label tab1 = 1
  /\ count_label cron_label tab2 = 2
  /\ tab2 = [mkJob "python sdk.py" cron_label daily;
             mkJob "python sdk.py" cron_label daily].
Proof. repeat split; reflexivity. Qed.

(** ** forge/auth.py *)

(** C9. forge/auth.py: [authenticate] raises [AuthenticationError] for
    every configuration and every state of the file system, and never
    returns.  With a key path that Python takes as true the name [os] is
    looked up, is not bound in the module, and the [NameError] comes back
    wrapped as [AuthenticationError("Authentication failed", e)]; with no
    key path (or an empty one) the test stops before [os] and the
    not-found error is raised. *)
Theorem authenticate_always_raises :
  forall (config : gmap string string) (fs : gmap string file),
    exists e,
      ForgeAuth.authenticate config fs = Raises e
      /\ exn_cls e = AuthenticationError
      /\ (truthy (config !! key) = true ->
          e = Exn AuthenticationError "Authentication failed"
                  (Some (NameError, "name 'os' is not defined")))
      /\ (truthy (config !! key) = false -> e = not_found (config !! key)).
Proof.
  intros config fs. unfold ForgeAuth.authenticate. fold key.
  destruct (truthy (config !! key)) eqn:Htruthy; simpl.
  - eexists. split; [reflexivity |]. split; [reflexivity |].
    split; [reflexivity | discriminate].
  - eexists. split; [reflexivity |]. split; [reflexivity |].
    split; [discriminate | reflexivity].
Qed.

(** The success path exists once [os] is bound: the same body in
    production-sdk (2).py, which imports [os], returns for a key file that
    is there and parses. *)
Lemma authenticate_v2_can_succeed (path credentials : string) :
  path <> "" ->
  ProductionSdk2.authenticate {[key := path]} {[path := JsonFile credentials]}
  = Returns path.
Proof.
  intros Hpath. unfold ProductionSdk2.authenticate. fold key.
  rewrite lookup_singleton_eq.
  assert (truthy (Some path) = true) as ->
    by (destruct path; [done | reflexivity]).
  simpl. unfold exists_path, open_json_load.
  rewrite lookup_singleton_eq. reflexivity.
Qed.

(** * Further properties of the code *)

(** ** [retry] of forge/utils.py and of sdk_0.py *)

Lemma failed_attempts_cons (delay a k : Z) :
  (0 < k)%Z ->
  failed_attempts delay a k
  = Call :: Sleep (delay * 2 ^ a) :: failed_attempts delay (Z.succ a) (Z.pred k).
Proof. intros Hk. unfold failed_attempts. by rewrite seqZ_cons. Qed.

Lemma failed_attempts_counts (delay a : Z) (k : nat) :
  calls (failed_attempts delay a (Z.of_nat k)) = k
  /\ sleeps (failed_attempts delay a (Z.of_nat k))
     = (fun j => delay * 2 ^ j)%Z <$> seqZ a (Z.of_nat k).
Proof.
  revert a. induction k as [| k IH]; intros a; [done |].
  rewrite failed_attempts_cons, (seqZ_cons a) by lia.
  replace (Z.pred (Z.of_nat (S k))) with (Z.of_nat k) by lia.
  destruct (IH (Z.succ a)) as [Hcalls Hsleeps].
  rewrite calls_cons_call, calls_cons_sleep, sleeps_cons_call,
    sleeps_cons_sleep, Hcalls, Hsleeps. done.
Qed.

Lemma calls_app tr1 tr2 : calls (tr1 ++ tr2) = calls tr1 + calls tr2.
Proof. unfold calls. by rewrite filter_app, length_app. Qed.

Lemma sleeps_app tr1 tr2 : sleeps (tr1 ++ tr2) = sleeps tr1 ++ sleeps tr2.
Proof. apply flat_map_app. Qed.

Section RetrySucceeds.
Context {A : Type}.
Variable func : nat -> outcome A.
Variables (retries delay : Z) (v : A).
Hypothesis delay_ok : (0 <= delay)%Z.

(** Both loops, [k] failures before the first success. *)
Lemma retry_loops_success (k : nat) :
  forall (a len : Z) (base : nat),
    (0 <= a)%Z -> (a + len = retries)%Z -> (Z.of_nat k < len)%Z ->
    (forall j, j < k -> exists e, func (base + j) = Raises e) ->
    func (base + k) = Returns v ->
    ForgeUtils.retry_loop func retries delay (seqZ a len) base
      = (failed_attempts delay a (Z.of_nat k) ++ [Call], Returns (Some v))
    /\ Sdk0.retry_loop func retries delay (seqZ a len) base
       = (failed_attempts delay a (Z.of_nat k) ++ [Call], Returns v).
Proof.
  induction k as [| k IH]; intros a len base Ha Hlen Hk Hfail Hok.
  - rewrite seqZ_cons by lia. rewrite Nat.add_0_r in Hok.
    cbn [ForgeUtils.retry_loop Sdk0.retry_loop]. rewrite Hok. done.
  - rewrite seqZ_cons by lia.
    destruct (Hfail 0) as [e He]; [lia |]. rewrite Nat.add_0_r in He.
    cbn [ForgeUtils.retry_loop Sdk0.retry_loop]. rewrite He.
    destruct (Z.eqb_spec a (retries - 1)) as [Heq | _]; [lia |].
    rewrite sleep_nonneg by (apply Z.mul_nonneg_nonneg; [lia |];
                             apply Z.pow_nonneg; lia).
    destruct (IH (Z.succ a) (Z.pred len) (S base)) as [Hforge Hsdk0];
      [lia | lia | lia | | |].
    + intros j Hj. replace (S base + j) with (base + S j) by lia.
      apply Hfail. lia.
    + by replace (S base + k) with (base + S k) by lia.
    + rewrite Hforge, Hsdk0, (failed_attempts_cons delay a) by lia.
      replace (Z.pred (Z.of_nat (S k))) with (Z.of_nat k) by lia. done.
Qed.

End RetrySucceeds.



(** X2. [retry] of sdk_0.py and of forge/utils.py behave alike as long as
    the function succeeds within the budget: same calls, same sleeps, same
    value. *)
Theorem retry_revisions_agree_on_success :
  forall (A : Type) (func : nat -> outcome A) (retries delay : Z) (k : nat)
         (v : A),
    (0 <= delay)%Z -> (Z.of_nat k < retries)%Z ->
    (forall j, j < k -> exists e, func j = Raises e) ->
    func k = Returns v ->
    (Sdk0.retry func retries delay).1 = (ForgeUtils.retry func retries delay).1
    /\ (Sdk0.retry func retries delay).2 = Returns v
    /\ (ForgeUtils.retry func retries delay).2 = Returns (Some v).
Proof.
  intros A func retries delay k v Hdelay Hk Hfail Hok.
  destruct (retry_loops_success func retries delay v Hdelay k 0 retries 0)
    as [Hforge Hsdk0]; [lia | lia | lia | done | done |].
  unfold ForgeUtils.retry, Sdk0.retry, range. by rewrite Hforge, Hsdk0.
Qed.

Lemma retry_revisions_agree_on_success_witness :
  let func j := if Nat.ltb j 1 then Raises (Exn ConnectionError "reset" None)
                else Returns 7 in
  (Sdk0.retry func 3 2).1 = (ForgeUtils.retry func 3 2).1
  /\ (Sdk0.retry func 3 2).2 = Returns 7
  /\ (ForgeUtils.retry func 3 2).2 = Returns (Some 7).
Proof.
  apply (retry_revisions_agree_on_success nat _ 3 2 1 7); [lia | lia | | done].
  intros j Hj. exists (Exn ConnectionError "reset" None).
  destruct j as [| j]; [done | lia].
Defined.

Lemma sleep_cases d :
  (exists e, sleep d = ([], Raises e)) \/ sleep d = ([Sleep d], Returns tt).
Proof. unfold sleep. destruct (d <? 0)%Z; eauto. Qed.

Lemma retry_loop_bounds {A} (func : nat -> outcome A) (retries delay : Z)
    (attempts : list Z) :
  forall k,
    let tr := (ForgeUtils.retry_loop func retries delay attempts k).1 in
    calls tr <= length attempts /\ length (sleeps tr) <= calls tr.
Proof.
  induction attempts as [| attempt rest IH]; intros k;
    [cbn; unfold calls; simpl; lia |].
  cbn [ForgeUtils.retry_loop].
  destruct (func k) as [v | e]; [cbn; unfold calls; simpl; lia |].
  destruct (attempt =? retries - 1)%Z; [cbn; unfold calls; simpl; lia |].
  destruct (sleep_cases (delay * 2 ^ attempt)) as [[e' ->] | ->];
    [cbn; unfold calls; simpl; lia |].
  specialize (IH (S k)). cbn zeta in IH.
  destruct (ForgeUtils.retry_loop func retries delay rest (S k)) as [tr r].
  cbn [fst app] in *. cbn zeta.
  rewrite calls_cons_call, calls_cons_sleep, sleeps_cons_call,
    sleeps_cons_sleep. cbn [length]. lia.
Qed.

(** X3. forge/utils.py [retry] never calls the function more often than
    [retries] (not at all when [retries <= 0]), whatever the function does,
    and never sleeps more often than it has called. *)
Theorem retry_respects_budget :
  forall (A : Type) (func : nat -> outcome A) (retries delay : Z),
    let tr := (ForgeUtils.retry func retries delay).1 in
    calls tr <= Z.to_nat retries /\ length (sleeps tr) <= calls tr.
Proof.
  intros A func retries delay. unfold ForgeUtils.retry, range.
  pose proof (retry_loop_bounds func retries delay (seqZ 0 retries) 0) as H.
  by rewrite length_seqZ in H.
Qed.

(** X4. forge/utils.py [retry] with a negative delay: when the first call
    fails and another attempt is left, [time.sleep] rejects the delay, so
    the caller gets that [ValueError] after a single call, not the error
    of the function. *)
Theorem retry_negative_delay_masks_error :
  forall (A : Type) (func : nat -> outcome A) (retries delay : Z) (e : exn),
    (delay < 0)%Z -> (2 <= retries)%Z -> func 0 = Raises e ->
    ForgeUtils.retry func retries delay
    = ([Call],
       Raises (Exn ValueError "sleep length must be non-negative" None)).
Proof.
  intros A func retries delay e Hdelay Hretries Hfail.
  unfold ForgeUtils.retry, range. rewrite seqZ_cons by lia.
  cbn [ForgeUtils.retry_loop]. rewrite Hfail.
  destruct (Z.eqb_spec 0 (retries - 1)) as [Heq | _]; [lia |].
  unfold sleep. rewrite Z.pow_0_r, Z.mul_1_r.
  destruct (Z.ltb_spec delay 0); [done | lia].
Qed.

Lemma retry_negative_delay_masks_error_witness :
  ForgeUtils.retry
    (fun _ : nat => @Raises nat (Exn ConnectionError "reset" None)) 3 (-2)
  = ([Call], Raises (Exn ValueError "sleep length must be non-negative" None)).
Proof.
  apply (retry_negative_delay_masks_error nat _ 3 (-2)
           (Exn ConnectionError "reset" None)); [lia | lia | done].
Defined.




Lemma backoff_delays_total (delay : Z) (n : nat) :
  foldr Z.add 0%Z (backoff_delays delay (Z.of_nat n))
  = (delay * (2 ^ Z.of_nat n - 1))%Z.
Proof.
  unfold backoff_delays. induction n as [| n IH]; [simpl; lia |].
  rewrite seqZ_S, fmap_app, foldr_app. simpl.
  rewrite Z.add_0_l, Z.add_0_r.
  assert (forall (l : list Z) (x : Z),
            foldr Z.add x l = (foldr Z.add 0 l + x)%Z) as Hshift.
  { induction l as [| y l IHl]; intros x; simpl; [lia |].
    rewrite IHl. lia. }
  rewrite Hshift, IH. rewrite Nat2Z.inj_succ, Z.pow_succ_r by lia. lia.
Qed.

(** X6. forge/utils.py [retry], when the function fails every time
    ([retries >= 1], delay not negative): the caller gets the error of the
    last call, after [retries] calls and a total sleep of
    [delay * (2 ^ (retries - 1) - 1)]. *)
Theorem retry_raises_last_error :
  forall (A : Type) (func : nat -> outcome A) (err : nat -> exn)
         (retries delay : Z),
    (1 <= retries)%Z -> (0 <= delay)%Z ->
    (forall k, func k = Raises (err k)) ->
    exists tr,
      ForgeUtils.retry func retries delay
        = (tr, Raises (err (Z.to_nat retries - 1)))
      /\ calls tr = Z.to_nat retries
      /\ total_sleep tr = (delay * (2 ^ (retries - 1) - 1))%Z.
Proof.
  intros A func err retries delay Hretries Hdelay Hfail.
  destruct (retry_exhausts_budget func err Hfail retries delay Hretries Hdelay)
    as (tr & Heq & Hcalls & Hsleeps).
  exists tr. split; [exact Heq | split; [exact Hcalls |]].
  unfold total_sleep. rewrite Hsleeps.
  rewrite <- (Z2Nat.id (retries - 1)) by lia. apply backoff_delays_total.
Qed.

Lemma retry_raises_last_error_witness :
  let err k := Exn ConnectionError (if Nat.eqb k 2 then "last" else "early")
                   None in
  exists tr,
    ForgeUtils.retry (fun k : nat => @Raises nat (err k)) 3 2
    = (tr, Raises (err (Z.to_nat 3 - 1)))
    /\ calls tr = Z.to_nat 3
    /\ total_sleep tr = (2 * (2 ^ (3 - 1) - 1))%Z.
Proof.
  intros err.
  apply (retry_raises_last_error nat (fun k => Raises (err k)) err 3 2);
    [lia | lia | done].
Defined.

(** ** sdk_0.py: [call_process], [process_documents], [create_cron_job] *)

Lemma gather_returned (fs : list (future json)) :
  forall results, Sdk0.gather fs results = results ++ omap returned fs.
Proof.
  induction fs as [| f fs IH]; intros results; simpl.
  - by rewrite app_nil_r.
  - unfold returned at 1. destruct (fut_result f) as [r | e]; rewrite IH.
    + by rewrite <- app_assoc.
    + done.
Qed.

Lemma length_omap_le {A B} (g : A -> option B) (l : list A) :
  length (omap g l) <= length l.
Proof.
  induction l as [| x l IH]; [done |]. cbn [omap list_omap].
  destruct (g x); simpl; lia.
Qed.

(** X7. sdk_0.py [process_documents] never raises: its result is the
    list of the bodies of the urls whose [call_process] returned, in
    submission order; a url whose call raised leaves no entry, so the
    result can be shorter than the input. *)
Theorem sdk0_process_documents_drops_failures :
  forall (config : gmap string string) (net : nat -> nat -> outcome response)
         (urls : list string),
    let fs := submit_all (fun i u => Sdk0.call_process config (net i) u) urls in
    (Sdk0.process_documents config net urls).2 = Returns (omap returned fs)
    /\ length (omap returned fs) <= length urls
    /\ (Forall (fun f => returned f = None) fs ->
        (Sdk0.process_documents config net urls).2 = Returns []).
Proof.
  intros config net urls fs. unfold Sdk0.process_documents. fold fs.
  cbn [snd]. rewrite gather_returned. cbn [app]. split; [done | split].
  - rewrite <- (submit_all_length
                  (fun i u => Sdk0.call_process config (net i) u) urls).
    apply length_omap_le.
  - intros Hall. f_equal. induction Hall as [| f l Hf _ IH]; [done |].
    cbn [omap list_omap]. by rewrite Hf.
Qed.

Lemma call_process_unconfigured config net u :
  truthy (config !! "API_ENDPOINT") = false ->
  Sdk0.call_process config net u
  = ([], Raises (Exn ValueError "API endpoint is not configured." None)).
Proof.
  unfold Sdk0.call_process, truthy.
  destruct (config !! "API_ENDPOINT") as [[| c s] |]; [done | discriminate | done].
Qed.

(** X8. sdk_0.py with [API_ENDPOINT] missing or empty: every
    [call_process] raises [ValueError] before any request, and
    [process_documents] swallows it: whatever the urls, it returns the
    empty list, makes no transport call and reports no error. *)
Theorem sdk0_unconfigured_endpoint_is_silent :
  forall (config : gmap string string) (net : nat -> nat -> outcome response)
         (urls : list string),
    truthy (config !! "API_ENDPOINT") = false ->
    Sdk0.process_documents config net urls = ([], Returns []).
Proof.
  intros config net urls Hconf. unfold Sdk0.process_documents.
  assert (forall (w : nat -> string -> list event * outcome json),
            (forall i u, w i u
               = ([], Raises (Exn ValueError "API endpoint is not configured."
                                  None))) ->
            worker_events (submit_all w urls) = []
            /\ Sdk0.gather (submit_all w urls) [] = []) as Hgen.
  { intros w Hw. unfold submit_all, worker_events.
    revert w Hw. induction urls as [| u urls IH]; intros w Hw; [done |].
    rewrite imap_cons, fmap_cons. cbn [concat Sdk0.gather fut_events fut_result].
    rewrite Hw. cbn [fst snd app].
    apply (IH (fun i => w (S i))). intros i u'. apply Hw. }
  destruct (Hgen (fun i u => Sdk0.call_process config (net i) u)) as [-> ->];
    [| done].
  intros i u. by apply call_process_unconfigured.
Qed.

Lemma sdk0_unconfigured_endpoint_is_silent_witness :
  Sdk0.process_documents {["API_KEY" := "k"]} (fun _ _ => completed_reply)
                         [doc1; doc2]
  = ([], Returns []).
Proof.
  apply (sdk0_unconfigured_endpoint_is_silent {["API_KEY" := "k"]}
           (fun _ _ => completed_reply) [doc1; doc2]).
  reflexivity.
Defined.

Lemma posts_of_calls (u : string) (tr : list event) :
  posts tr = 0 ->
  let tr' := (fun ev => match ev with Call => Post u | _ => ev end) <$> tr in
  posts tr' = calls tr /\ sleeps tr' = sleeps tr.
Proof.
  unfold posts, calls. induction tr as [| ev tr IH]; [done |].
  rewrite fmap_cons, !filter_cons. intros Hno.
  destruct ev; simpl in *; try discriminate;
    destruct (IH Hno) as [IHp IHs]; simpl; by rewrite ?IHp, ?IHs.
Qed.

Lemma failed_attempts_no_posts delay a (k : nat) :
  posts (failed_attempts delay a (Z.of_nat k) ++ [Call]) = 0.
Proof.
  revert a. induction k as [| k IH]; intros a; [done |].
  rewrite failed_attempts_cons by lia.
  replace (Z.pred (Z.of_nat (S k))) with (Z.of_nat k) by lia.
  exact (IH (Z.succ a)).
Qed.

(** X9. sdk_0.py [call_process] with an endpoint configured: when the
    first [k] requests fail ([k < 3]) and the next one is answered with a
    decodable body, that body is returned after exactly [k + 1] transport
    calls and the sleeps [2 * 2 ^ j] for [j = 0 .. k - 1]. *)
Theorem sdk0_call_process_retries_until_success :
  forall (config : gmap string string) (net : nat -> outcome response)
         (u : string) (k : nat) (data : json),
    truthy (config !! "API_ENDPOINT") = true -> k < 3 ->
    (forall j, j < k -> exists e, post_json (net j) = Raises e) ->
    post_json (net k) = Returns data ->
    exists tr,
      Sdk0.call_process config net u = (tr, Returns data)
      /\ posts tr = S k
      /\ sleeps tr = backoff_delays 2 (Z.of_nat k).
Proof.
  intros config net u k data Hconf Hk Hfail Hok.
  destruct (retry_loops_success (fun j => post_json (net j)) 3 2 data
              ltac:(lia) k 0 3 0) as [_ Hsdk0]; [lia | lia | lia | done | done |].
  unfold Sdk0.call_process, truthy in *.
  destruct (config !! "API_ENDPOINT") as [[| c s] |]; try discriminate.
  unfold Sdk0.retry, range. rewrite Hsdk0. eexists. split; [reflexivity |].
  destruct (posts_of_calls u _ (failed_attempts_no_posts 2 0 k)) as [-> ->].
  destruct (failed_attempts_counts 2 0 k) as [Hcalls Hsleeps].
  rewrite calls_app, sleeps_app, Hcalls, Hsleeps.
  change (calls [Call]) with 1. change (sleeps [Call]) with (@nil Z).
  rewrite app_nil_r. split; [lia | done].
Qed.

Lemma sdk0_call_process_retries_until_success_witness :
  exists tr,
    Sdk0.call_process {["API_ENDPOINT" := "https://api.example.com"]}
      (fun j => if Nat.ltb j 1 then unavailable_reply else completed_reply)
      doc1
    = (tr, Returns (JObject {["status" := "completed"]}))
    /\ posts tr = 2 /\ sleeps tr = backoff_delays 2 1.
Proof.
  apply (sdk0_call_process_retries_until_success
           {["API_ENDPOINT" := "https://api.example.com"]}
           (fun j => if Nat.ltb j 1 then unavailable_reply else completed_reply)
           doc1 1 (JObject {["status" := "completed"]}));
    [reflexivity | lia | | reflexivity].
  intros j Hj. exists (Exn HTTPError "Server Error" None).
  destruct j as [| j]; [reflexivity | lia].
Defined.

(** X10. sdk_0.py [create_cron_job]: a call whose cadence is accepted
    adds exactly one job under the fixed label and leaves every earlier
    job, of that label or another, in place; a call whose cadence is
    rejected raises and leaves the table as it was. *)
Theorem sdk0_create_cron_job_appends :
  forall (valid : string -> bool) (tab : list CronItem)
         (script schedule : string),
    let run := Sdk0.create_cron_job valid tab script schedule in
    (valid schedule = true ->
       run.2 = Returns tt
       /\ run.1 = tab ++ [mkJob ("python " +:+ script) cron_label schedule]
       /\ count_label cron_label run.1 = S (count_label cron_label tab))
    /\ (valid schedule = false ->
          run.1 = tab /\ exists e, run.2 = Raises e).
Proof.
  intros valid tab script schedule. unfold Sdk0.create_cron_job, setall.
  destruct (valid schedule); simpl; split; try discriminate; intros _.
  - split; [done | split; [done |]].
    unfold count_label, find_comment. rewrite filter_app, length_app.
    simpl. lia.
  - eauto.
Qed.

(** ** [process_batch] and [process_document] of the production revisions *)

(** X11. production-sdk (2).py [process_batch] on a non-empty list with
    an accepted pool size: the call returns, and its results are, up to
    order, one entry per submitted url: the worker's own result, or the
    failed result made from whatever the worker raised.  Exactly one
    transport call is made per url, and progress is logged as
    [1/N, 2/N, .., N/N]. *)
Theorem process_batch_v2_records_every_future :
  forall (net : nat -> outcome response) (clock : nat -> nat)
         (now : string -> nat) (urls : list string) (max_workers : Z)
         (order : list nat),
    urls <> [] -> (0 < max_workers)%Z -> order ≡ₚ seq 0 (length urls) ->
    let fs := submit_all
                (fun i u => ProductionSdk2.process_document (net i) (clock i) u)
                urls in
    exists tr results,
      ProductionSdk2.process_batch net clock now urls max_workers order
        = (tr, Returns results)
      /\ results ≡ₚ terminal now <$> fs
      /\ posts tr = length urls
      /\ progress_lines tr
         = (fun c => (c, length urls)) <$> seq 1 (length urls).
Proof.
  intros net clock now urls max_workers order Hne Hpos Horder.
  by apply process_batch_v2_isolates_failures.
Qed.

Lemma process_batch_v2_records_every_future_witness :
  exists tr results,
    ProductionSdk2.process_batch
      (fun i => if Nat.eqb i 0 then completed_reply else array_reply)
      (fun _ => 0) (fun _ => 0) [doc1; doc2] 5 [1; 0]
    = (tr, Returns results)
    /\ results ≡ₚ
       terminal (fun _ => 0)
         <$> submit_all
               (fun i u =>
                  ProductionSdk2.process_document
                    (if Nat.eqb i 0 then completed_reply else array_reply) 0 u)
               [doc1; doc2]
    /\ posts tr = 2
    /\ progress_lines tr = [(1, 2); (2, 2)].
Proof.
  apply (process_batch_v2_records_every_future
           (fun i => if Nat.eqb i 0 then completed_reply else array_reply)
           (fun _ => 0) (fun _ => 0) [doc1; doc2] 5 [1; 0]);
    [discriminate | lia | apply perm_swap].
Defined.

Lemma omap_lookup_total {A B} (g : A -> option B) (l : list A) (k : nat) :
  Forall (fun x => is_Some (g x)) l ->
  omap g l !! k = l !! k ≫= g.
Proof.
  intros Hall. revert k. induction Hall as [| x l [y Hy] _ IH]; intros k;
    [done |].
  cbn [omap list_omap]. rewrite Hy. destruct k as [| k]; simpl; [done |].
  apply IH.
Qed.

(** X12. production-sdk (2).py [process_batch] returns its results in
    completion order: when the future of position [i] is the [k]-th to
    complete, entry [k] of the result is the outcome of url [i]. *)
Theorem process_batch_v2_completion_order :
  forall (net : nat -> outcome response) (clock : nat -> nat)
         (now : string -> nat) (urls : list string) (max_workers : Z)
         (order : list nat) (k i : nat),
    urls <> [] -> (0 < max_workers)%Z -> order ≡ₚ seq 0 (length urls) ->
    order !! k = Some i ->
    let fs := submit_all
                (fun i u => ProductionSdk2.process_document (net i) (clock i) u)
                urls in
    exists tr results f,
      ProductionSdk2.process_batch net clock now urls max_workers order
        = (tr, Returns results)
      /\ fs !! i = Some f
      /\ results !! k = Some (terminal now f).
Proof.
  intros net clock now urls max_workers order k i Hne Hpos Horder Hk fs.
  rewrite process_batch_v2_nonempty by done. fold fs.
  assert (Forall (fun j => is_Some (fs !! j)) order) as Hall.
  { rewrite Horder. apply Forall_forall. intros j Hj.
    apply lookup_lt_is_Some. unfold fs. rewrite submit_all_length.
    apply elem_of_seq in Hj. lia. }
  assert (is_Some (fs !! i)) as [f Hf].
  { rewrite Forall_lookup in Hall. by apply (Hall k). }
  eexists _, _, f. split; [reflexivity | split; [exact Hf |]].
  rewrite list_lookup_fmap. unfold as_completed.
  rewrite omap_lookup_total by done. by rewrite Hk; simpl; rewrite Hf.
Qed.

Lemma process_batch_v2_completion_order_witness :
  exists tr results f,
    ProductionSdk2.process_batch
      (fun i => if Nat.eqb i 0 then completed_reply else not_found_reply)
      (fun _ => 0) (fun _ => 0) [doc1; doc2] 5 [1; 0]
    = (tr, Returns results)
    /\ submit_all
         (fun i u =>
            ProductionSdk2.process_document
              (if Nat.eqb i 0 then completed_reply else not_found_reply) 0 u)
         [doc1; doc2] !! 1 = Some f
    /\ results !! 0 = Some (terminal (fun _ => 0) f).
Proof.
  apply (process_batch_v2_completion_order
           (fun i => if Nat.eqb i 0 then completed_reply else not_found_reply)
           (fun _ => 0) (fun _ => 0) [doc1; doc2] 5 [1; 0] 0 1);
    [discriminate | lia | apply perm_swap | reflexivity].
Defined.

(** X13. A pool size of zero or less is rejected by the executor before
    any future exists: [process_batch] of all three production revisions
    raises [ValueError] on a non-empty list without a transport call, and
    production-sdk (2).py checks the list first, so an empty list still
    gives [ValidationError]. *)
Theorem process_batch_rejects_pool_size :
  forall (urls : list string) (max_workers : Z) (order : list nat),
    (max_workers <= 0)%Z ->
    let bad := Exn ValueError "max_workers must be greater than 0" None in
    (forall net clock callback,
       ProductionSdk.process_batch net clock urls max_workers callback order
       = ([], Raises bad))
    /\ (forall net clock now,
          ProductionSdk1.process_batch net clock now urls max_workers order
          = ([], Raises bad))
    /\ (forall net clock now,
          ProductionSdk2.process_batch net clock now urls max_workers order
          = ([], Raises (if bool_decide (urls = [])
                         then Exn ValidationError
                                  "No URLs provided for processing" None
                         else bad))).
Proof.
  intros urls max_workers order Hbad bad.
  assert (ThreadPoolExecutor max_workers = Raises bad) as Hpool.
  { unfold ThreadPoolExecutor. destruct (Z.leb_spec max_workers 0); [done | lia]. }
  split; [| split]; intros net clock ?.
  - unfold ProductionSdk.process_batch. by rewrite Hpool.
  - unfold ProductionSdk1.process_batch. by rewrite Hpool.
  - unfold ProductionSdk2.process_batch. destruct urls; [done |].
    by rewrite Hpool.
Qed.

Lemma process_batch_rejects_pool_size_witness :
  ProductionSdk2.process_batch (fun _ => completed_reply) (fun _ => 0)
                               (fun _ => 0) [doc1] 0 [0]
  = ([], Raises (Exn ValueError "max_workers must be greater than 0" None)).
Proof.
  apply (process_batch_rejects_pool_size [doc1] 0 [0]). lia.
Defined.

(** X14. production-sdk.py [process_document]: the [backoff] decorator
    never takes effect.  Unless the transport itself raises the SDK's
    [APIError], a call of [process_document] is one run of its body: one
    transport call, no sleep, whatever the reply. *)
Theorem process_document_decorator_is_inert :
  forall (net : nat -> outcome response) (now : nat) (u : string),
    (forall e, post_json (net 0) = Raises e -> isinstance e APIError = false) ->
    ProductionSdk.process_document net now u
    = ProductionSdk.process_document_body (net 0) now u
    /\ posts (ProductionSdk.process_document net now u).1 = 1
    /\ sleeps (ProductionSdk.process_document net now u).1 = [].
Proof.
  intros net now u Hlib.
  assert (ProductionSdk.process_document net now u
          = ProductionSdk.process_document_body (net 0) now u) as Heq.
  { unfold ProductionSdk.process_document, on_exception. simpl.
    unfold ProductionSdk.process_document_body.
    destruct (post_json (net 0)) as [[d |] | e] eqn:Hpost; simpl; try done.
    destruct (isinstance e RequestException) eqn:Hreq; simpl; [done |].
    by rewrite Hreq, (Hlib e eq_refl). }
  rewrite Heq. done.
Qed.

Lemma process_document_decorator_is_inert_witness :
  ProductionSdk.process_document (fun _ => unavailable_reply) 0 doc1
  = ProductionSdk.process_document_body unavailable_reply 0 doc1
  /\ posts (ProductionSdk.process_document (fun _ => unavailable_reply) 0 doc1).1
     = 1
  /\ sleeps (ProductionSdk.process_document (fun _ => unavailable_reply) 0 doc1).1
     = [].
Proof.
  apply (process_document_decorator_is_inert (fun _ => unavailable_reply) 0 doc1).
  intros e He. injection He as <-. reflexivity.
Defined.

Lemma collect_v1_progress total now done :
  Forall handled_v1 done ->
  forall results completed,
    progress_lines
      (ProductionSdk1.collect total done now results completed).1
    = (fun c => (c, total))
        <$> seq (S completed) (length (omap returned done)).
Proof.
  induction 1 as [| f done Hf _ IH]; intros results completed; [done |].
  cbn [ProductionSdk1.collect omap list_omap]. unfold returned at 1.
  destruct (fut_result f) as [r | e] eqn:Hr.
  - specialize (IH (results ++ [r]) (S completed)).
    destruct (ProductionSdk1.collect total done now (results ++ [r])
                (S completed)) as [tr out].
    cbn [fst length seq] in *. rewrite fmap_cons.
    change (progress_lines (LogProgress (S completed) total :: tr))
      with ((S completed, total) :: progress_lines tr).
    by rewrite IH.
  - rewrite (Hf e Hr). apply IH.
Qed.

(** X15. production-sdk (1).py [process_batch], when each reply is a JSON
    object or a [RequestException] failure: every url gets a result, but
    the progress lines count the successful urls only; with [s] successes
    among N urls they read [1/N .. s/N]. *)
Theorem process_batch_v1_progress_counts_successes :
  forall (net : nat -> outcome response) (clock : nat -> nat)
         (now : string -> nat) (urls : list string) (max_workers : Z)
         (order : list nat),
    (0 < max_workers)%Z -> order ≡ₚ seq 0 (length urls) ->
    (forall i, i < length urls -> anticipated (net i) = true) ->
    let fs := submit_all
                (fun i u => ProductionSdk1.process_document (net i) (clock i) u)
                urls in
    let run := ProductionSdk1.process_batch net clock now urls max_workers
                                            order in
    progress_lines run.1
    = (fun c => (c, length urls)) <$> seq 1 (length (omap returned fs))
    /\ exists results, run.2 = Returns results /\ length results = length urls.
Proof.
  intros net clock now urls max_workers order Hpos Horder Hant fs run.
  destruct (process_batch_v1_complete net clock now urls max_workers order
              Hpos Horder Hant) as (tr & results & Heq & Hlen & _).
  split; [| exists results; unfold run; by rewrite Heq].
  unfold run, ProductionSdk1.process_batch. rewrite pool_accepts by done.
  fold fs.
  destruct (futures_v1 net clock urls Hant) as [_ Hhandled]. fold fs in Hhandled.
  assert (as_completed fs order ≡ₚ fs) as Hperm.
  { apply as_completed_perm. unfold fs. by rewrite submit_all_length. }
  pose proof (collect_v1_progress (length urls) now (as_completed fs order))
    as Hprog.
  specialize (Hprog ltac:(by rewrite Hperm) [] 0).
  destruct (ProductionSdk1.collect (length urls) (as_completed fs order) now
              [] 0) as [tr' out].
  cbn [fst] in *. rewrite progress_lines_app, Hprog, Hperm.
  assert (Forall one_post fs) as Hone
    by (apply submit_all_Forall; intros i u _; reflexivity).
  destruct (worker_events_one_post fs Hone) as (_ & _ & ->). done.
Qed.

Lemma process_batch_v1_progress_counts_successes_witness :
  let net i := if Nat.eqb i 0 then completed_reply else not_found_reply in
  let run := ProductionSdk1.process_batch net (fun _ => 0) (fun _ => 0)
               [doc1; doc2] 5 [1; 0] in
  progress_lines run.1
  = (fun c => (c, 2))
      <$> seq 1 (length
                   (omap returned
                      (submit_all
                         (fun i u => ProductionSdk1.process_document (net i) 0 u)
                         [doc1; doc2])))
  /\ exists results, run.2 = Returns results /\ length results = 2.
Proof.
  intros net.
  apply (process_batch_v1_progress_counts_successes net (fun _ => 0)
           (fun _ => 0) [doc1; doc2] 5 [1; 0]); [lia | apply perm_swap |].
  intros i Hi. destruct i as [| [| i]]; [reflexivity | reflexivity |].
  simpl in Hi. lia.
Defined.

Lemma collect_v1_all_returned total now done :
  Forall answers done ->
  forall results completed,
    ProductionSdk1.collect total done now results completed
    = ((fun c => LogProgress c total) <$> seq (S completed) (length done),
       Returns (results ++ (terminal now <$> done))).
Proof.
  induction 1 as [| f done (r & Hr & _) _ IH]; intros results completed.
  - simpl. by rewrite app_nil_r.
  - cbn [ProductionSdk1.collect]. rewrite Hr, IH. cbn [length seq].
    rewrite !fmap_cons. unfold terminal at 2. rewrite Hr.
    by rewrite <- app_assoc.
Qed.

Lemma terminal_returned now (fs : list (future ProcessingResult)) :
  Forall answers fs -> omap returned fs = terminal now <$> fs.
Proof.
  induction 1 as [| f fs (r & Hr & _) _ IH]; [done |].
  cbn [omap list_omap]. rewrite fmap_cons. unfold returned at 1, terminal at 1.
  by rewrite Hr, IH.
Qed.

Lemma healthy_document net_i now u :
  healthy net_i = true ->
  exists r,
    url r = u
    /\ ProductionSdk2.process_document net_i now u = ([Post u], Returns r)
    /\ ProductionSdk1.process_document net_i now u = ([Post u], Returns r)
    /\ ProductionSdk.process_document (fun _ => net_i) now u
       = ([Post u], Returns r).
Proof.
  unfold healthy. intros Hh.
  destruct (post_json net_i) as [[d |] | e] eqn:Hpost; try discriminate.
  exists (mkResult u (default "completed" (d !! "status")) now
                   (d !! "metadata") None).
  split; [done |].
  unfold ProductionSdk2.process_document, ProductionSdk2.post,
    ProductionSdk1.process_document.
  rewrite Hpost. split; [done | split; [done |]].
  apply process_document_returns.
  unfold ProductionSdk.process_document_body. by rewrite Hpost.
Qed.

(** X16. On a transport that answers every url with an accepted status
    and a JSON object, the three production revisions of [process_batch]
    are indistinguishable (production-sdk.py taken without a callback):
    same transport calls, same progress lines, same results in the same
    order. *)
Theorem process_batch_revisions_agree_when_healthy :
  forall (net : nat -> outcome response) (clock : nat -> nat)
         (now : string -> nat) (urls : list string) (max_workers : Z)
         (order : list nat),
    urls <> [] -> (0 < max_workers)%Z -> order ≡ₚ seq 0 (length urls) ->
    (forall i, i < length urls -> healthy (net i) = true) ->
    ProductionSdk1.process_batch net clock now urls max_workers order
    = ProductionSdk2.process_batch net clock now urls max_workers order
    /\ ProductionSdk.process_batch (fun i _ => net i) clock urls max_workers
                                   false order
       = ProductionSdk2.process_batch net clock now urls max_workers order.
Proof.
  intros net clock now urls max_workers order Hne Hpos Horder Hhealthy.
  rewrite process_batch_v2_nonempty by done.
  set (fs := submit_all
               (fun i u => ProductionSdk2.process_document (net i) (clock i) u)
               urls).
  assert (submit_all
            (fun i u => ProductionSdk1.process_document (net i) (clock i) u)
            urls = fs) as Hfs1.
  { apply imap_ext. intros i u Hi. apply lookup_lt_Some in Hi.
    destruct (healthy_document (net i) (clock i) u (Hhealthy i Hi))
      as (r & _ & -> & -> & _). done. }
  assert (submit_all
            (fun i u => ProductionSdk.process_document (fun _ => net i)
                          (clock i) u)
            urls = fs) as Hfs0.
  { apply imap_ext. intros i u Hi. apply lookup_lt_Some in Hi.
    destruct (healthy_document (net i) (clock i) u (Hhealthy i Hi))
      as (r & _ & -> & _ & ->). done. }
  assert (Forall answers fs) as Hans.
  { apply submit_all_Forall. intros i u Hi. apply lookup_lt_Some in Hi.
    destruct (healthy_document (net i) (clock i) u (Hhealthy i Hi))
      as (r & Hurl & -> & _). by exists r. }
  assert (as_completed fs order ≡ₚ fs) as Hperm.
  { apply as_completed_perm. unfold fs. by rewrite submit_all_length. }
  assert (Forall answers (as_completed fs order)) as Hdone
    by (by rewrite Hperm).
  split.
  - unfold ProductionSdk1.process_batch. rewrite pool_accepts, Hfs1 by done.
    by rewrite collect_v1_all_returned.
  - unfold ProductionSdk.process_batch. rewrite pool_accepts, Hfs0 by done.
    rewrite collect_v0 by done. by rewrite (terminal_returned now).
Qed.

Lemma process_batch_revisions_agree_when_healthy_witness :
  ProductionSdk1.process_batch (fun _ => completed_reply) (fun _ => 0)
                               (fun _ => 0) [doc1; doc2] 5 [1; 0]
  = ProductionSdk2.process_batch (fun _ => completed_reply) (fun _ => 0)
                                 (fun _ => 0) [doc1; doc2] 5 [1; 0]
  /\ ProductionSdk.process_batch (fun _ _ => completed_reply) (fun _ => 0)
                                 [doc1; doc2] 5 false [1; 0]
     = ProductionSdk2.process_batch (fun _ => completed_reply) (fun _ => 0)
                                    (fun _ => 0) [doc1; doc2] 5 [1; 0].
Proof.
  apply (process_batch_revisions_agree_when_healthy
           (fun _ => completed_reply) (fun _ => 0) (fun _ => 0)
           [doc1; doc2] 5 [1; 0]);
    [discriminate | lia | apply perm_swap | reflexivity].
Defined.

(** ** [schedule_job] *)

Lemma schedule_job_v2_effect valid self tab schedule label :
  valid schedule = true ->
  let job := mkJob ("python " +:+ ProductionSdk2.script_path self) label
                   schedule in
  let crons := filter (fun j => ¬ has_comment label j)
                      (ProductionSdk2.cron self) ++ [job] in
  ProductionSdk2.schedule_job valid self tab schedule label
  = (ProductionSdk2.mkScheduler (ProductionSdk2.script_path self) crons,
     crons, Returns job).
Proof.
  intros Hvalid. unfold ProductionSdk2.schedule_job, setall.
  pose proof (remove_each_found label (ProductionSdk2.cron self) []
                (List.Forall_nil _)) as Hrm.
  simpl in Hrm. by rewrite Hrm, Hvalid.
Qed.

Lemma schedule_job_v0_effect valid self tab schedule label :
  valid schedule = true ->
  let job := mkJob ("python " +:+ ProductionSdk.script_path self) label
                   schedule in
  let crons := filter (fun j => ¬ has_comment label j)
                      (ProductionSdk.cron self) ++ [job] in
  ProductionSdk.schedule_job valid self tab schedule label
  = (ProductionSdk.mkScheduler (ProductionSdk.script_path self) crons,
     crons, Returns job).
Proof.
  intros Hvalid. unfold ProductionSdk.schedule_job, setall.
  pose proof (remove_each_found label (ProductionSdk.cron self) []
                (List.Forall_nil _)) as Hrm.
  simpl in Hrm. by rewrite Hrm, Hvalid.
Qed.

Lemma filter_relabelled (label : string) (crons : list CronItem)
    (job : CronItem) :
  comment job = label ->
  filter (fun j => ¬ has_comment label j)
         (filter (fun j => ¬ has_comment label j) crons ++ [job])
  = filter (fun j => ¬ has_comment label j) crons.
Proof.
  intros Hjob. rewrite filter_app.
  assert (filter (fun j => ¬ has_comment label j) [job] = []) as ->.
  { rewrite filter_cons, decide_False; [done |].
    intros Hn. apply Hn. unfold has_comment. by apply bool_decide_pack. }
  rewrite app_nil_r. induction crons as [| j crons IH]; [done |].
  rewrite filter_cons. destruct (decide (¬ has_comment label j)); [| exact IH].
  rewrite filter_cons, decide_True by done. by rewrite IH.
Qed.

(** X17. production-sdk (2).py [schedule_job] is idempotent: registering
    the same cadence under the same label a second time leaves the
    scheduler's table and the stored table exactly as the first
    registration left them. *)
Theorem schedule_job_v2_idempotent :
  forall (valid : string -> bool) (self : ProductionSdk2.Scheduler)
         (tab : list CronItem) (schedule label : string),
    valid schedule = true ->
    let once := ProductionSdk2.schedule_job valid self tab schedule label in
    let twice := ProductionSdk2.schedule_job valid once.1.1 once.1.2
                                             schedule label in
    twice = once /\ count_label label once.1.2 = 1.
Proof.
  intros valid self tab schedule label Hvalid once twice.
  unfold twice, once. rewrite !schedule_job_v2_effect by done.
  cbn [fst snd ProductionSdk2.script_path ProductionSdk2.cron].
  rewrite filter_relabelled by done. split; [done |].
  by apply count_label_replaced.
Qed.

Lemma schedule_job_v2_idempotent_witness :
  let valid (_ : string) := true in
  let self := ProductionSdk2.init "job.py" [mkJob "backup" "Nightly" daily] in
  let once := ProductionSdk2.schedule_job valid self [] daily "Nightly" in
  ProductionSdk2.schedule_job valid once.1.1 once.1.2 daily "Nightly" = once
  /\ count_label "Nightly" once.1.2 = 1.
Proof.
  intros valid self.
  apply (schedule_job_v2_idempotent valid self [] daily "Nightly").
  reflexivity.
Defined.

(** X18. production-sdk.py [schedule_job]: a second registration under
    the same label with another accepted cadence replaces the first: the
    table then holds the jobs of the other labels, unchanged and in
    order, followed by one job with the later cadence. *)
Theorem schedule_job_v0_latest_cadence_wins :
  forall (valid : string -> bool) (self : ProductionSdk.Scheduler)
         (tab : list CronItem) (first second label : string),
    valid first = true -> valid second = true ->
    let once := ProductionSdk.schedule_job valid self tab first label in
    let twice := ProductionSdk.schedule_job valid once.1.1 once.1.2
                                            second label in
    twice.1.2
    = filter (fun j => ¬ has_comment label j) (ProductionSdk.cron self)
        ++ [mkJob ("python " +:+ ProductionSdk.script_path self) label second]
    /\ ProductionSdk.cron twice.1.1 = twice.1.2.
Proof.
  intros valid self tab first second label Hfirst Hsecond once twice.
  unfold twice, once. rewrite (schedule_job_v0_effect valid self) by done.
  cbn [fst snd]. rewrite schedule_job_v0_effect by done.
  cbn [fst snd ProductionSdk.script_path ProductionSdk.cron].
  by rewrite filter_relabelled.
Qed.

Lemma schedule_job_v0_latest_cadence_wins_witness :
  let valid (_ : string) := true in
  let self := ProductionSdk.init "job.py" [mkJob "backup" "Nightly" daily] in
  let once := ProductionSdk.schedule_job valid self [] daily "Docs" in
  let twice := ProductionSdk.schedule_job valid once.1.1 once.1.2
                                          "0 6 * * *" "Docs" in
  twice.1.2
  = filter (fun j => ¬ has_comment "Docs" j) (ProductionSdk.cron self)
      ++ [mkJob ("python " +:+ ProductionSdk.script_path self) "Docs"
                "0 6 * * *"]
  /\ ProductionSdk.cron twice.1.1 = twice.1.2.
Proof.
  intros valid self.
  apply (schedule_job_v0_latest_cadence_wins valid self [] daily "0 6 * * *"
           "Docs"); reflexivity.
Defined.

(** X19. production-sdk (2).py [schedule_job] with a cadence that
    [setall] rejects: the call raises [SchedulingError] carrying the
    original error, and the stored table is untouched; nothing is
    written. *)
Theorem schedule_job_v2_rejected_cadence :
  forall (valid : string -> bool) (self : ProductionSdk2.Scheduler)
         (tab : list CronItem) (schedule label : string),
    valid schedule = false ->
    let run := ProductionSdk2.schedule_job valid self tab schedule label in
    run.1.2 = tab
    /\ exists e,
         run.2 = Raises e
         /\ exn_cls e = SchedulingError
         /\ original_error e
            = Some (ValueError, "Invalid cadence: " +:+ schedule).
Proof.
  intros valid self tab schedule label Hvalid.
  unfold ProductionSdk2.schedule_job, setall.
  pose proof (remove_each_found label (ProductionSdk2.cron self) []
                (List.Forall_nil _)) as Hrm.
  simpl in Hrm. rewrite Hrm, Hvalid. simpl. eauto.
Qed.

Lemma schedule_job_v2_rejected_cadence_witness :
  let valid (s : string) := bool_decide (s = daily) in
  let tab := [mkJob "backup" "Nightly" daily] in
  let run := ProductionSdk2.schedule_job valid (ProductionSdk2.init "job.py" tab)
               tab "invalid_schedule" "Nightly" in
  run.1.2 = tab
  /\ exists e,
       run.2 = Raises e
       /\ exn_cls e = SchedulingError
       /\ original_error e
          = Some (ValueError, "Invalid cadence: " +:+ "invalid_schedule").
Proof.
  intros valid tab.
  apply (schedule_job_v2_rejected_cadence valid (ProductionSdk2.init "job.py" tab)
           tab "invalid_schedule" "Nightly").
  reflexivity.
Defined.

(** ** [Authenticator] *)

Lemma truthy_Some (x : option string) :
  truthy x = true <-> exists p, x = Some p /\ p <> "".
Proof.
  destruct x as [[| c s] |]; simpl; split; try discriminate.
  - intros (p & [= <-] & Hp). done.
  - intros _. eexists. split; [reflexivity | discriminate].
  - done.
  - intros (p & Hp & _). discriminate.
Qed.

(** X20. production-sdk (2).py [authenticate] returns the key path
    exactly when [GCP_JSON_KEY_PATH] is set and not empty and names a file
    that exists and parses as JSON; in every other case it raises, and
    what it raises is always an [AuthenticationError]. *)
Theorem authenticate_v2_succeeds_iff :
  forall (config : gmap string string) (fs : gmap string file),
    (forall p,
       ProductionSdk2.authenticate config fs = Returns p
       <-> config !! key = Some p /\ p <> ""
           /\ exists c, fs !! p = Some (JsonFile c))
    /\ (forall e,
          ProductionSdk2.authenticate config fs = Raises e ->
          exn_cls e = AuthenticationError).
Proof.
  intros config fs. unfold ProductionSdk2.authenticate. fold key.
  destruct (config !! key) as [[| c s] |] eqn:Hkey; simpl.
  - split; [intros p; split; [discriminate | intros ([= <-] & Hp & _); done] |].
    by intros e [= <-].
  - unfold exists_path, open_json_load.
    destruct (fs !! String c s) as [[cr |] |] eqn:Hfile; simpl.
    + split; [| discriminate]. intros p. split.
      * intros [= <-]. eauto.
      * by intros ([= <-] & _ & _).
    + split; [| by intros e [= <-]]. intros p. split; [discriminate |].
      intros ([= <-] & _ & cr & Hcr). congruence.
    + split; [| by intros e [= <-]]. intros p. split; [discriminate |].
      intros ([= <-] & _ & cr & Hcr). congruence.
  - split; [intros p; split; [discriminate | intros (Hp & _); discriminate] |].
    by intros e [= <-].
Qed.

(** X21. [authenticate] of production-sdk.py and of production-sdk (2).py
    succeed on the same configurations and files, with the same value,
    and both raise nothing but [AuthenticationError]. *)
Theorem authenticate_revisions_agree :
  forall (config : gmap string string) (fs : gmap string file),
    (forall p,
       ProductionSdkAuth.authenticate config fs = Returns p
       <-> ProductionSdk2.authenticate config fs = Returns p)
    /\ (forall e,
          ProductionSdkAuth.authenticate config fs = Raises e ->
          exn_cls e = AuthenticationError).
Proof.
  intros config fs.
  unfold ProductionSdkAuth.authenticate, ProductionSdk2.authenticate.
  destruct (config !! "GCP_JSON_KEY_PATH") as [[| c s] |] eqn:Hkey; simpl.
  - split; [done | by intros e [= <-]].
  - unfold exists_path, open_json_load.
    destruct (fs !! String c s) as [[cr |] |] eqn:Hfile; simpl.
    + split; [done | discriminate].
    + split; [done | by intros e [= <-]].
    + split; [done | by intros e [= <-]].
  - split; [done | by intros e [= <-]].
Qed.

(** ** forge/config.py: [Config] *)

Lemma validate_accepts (d : gmap string (option string)) :
  ForgeConfig._validate_config (Some d) = Returns tt
  <-> truthy (ForgeConfig.dict_get d "API_ENDPOINT") = true
      /\ truthy (ForgeConfig.dict_get d "API_KEY") = true.
Proof.
  unfold ForgeConfig._validate_config, ForgeConfig.required_fields. simpl.
  destruct (truthy (ForgeConfig.dict_get d "API_ENDPOINT")),
    (truthy (ForgeConfig.dict_get d "API_KEY")); simpl;
    split; try discriminate; try tauto; intros [? ?]; discriminate.
Qed.


(** X22. forge/config.py: a [Config] that was constructed has a
    non-empty [API_ENDPOINT] and a non-empty [API_KEY], whichever source
    it was loaded from. *)
Theorem config_constructed_has_required_fields :
  forall (fs : gmap string ForgeConfig.yaml_document)
         (env : gmap string string) (default_path : string)
         (path : option string) (cfg : ForgeConfig.Config),
    ForgeConfig.init fs env default_path path = Returns cfg ->
    truthy (ForgeConfig.get cfg "API_ENDPOINT") = true
    /\ truthy (ForgeConfig.get cfg "API_KEY") = true.
Proof.
  intros fs env default_path path cfg. unfold ForgeConfig.init.
  destruct (ForgeConfig._load_config fs env _) as [[d |] | e];
    [| discriminate | discriminate].
  destruct (ForgeConfig._validate_config (Some d)) as [[] | e] eqn:Hval;
    [| discriminate].
  intros [= <-]. unfold ForgeConfig.get. simpl. by apply validate_accepts.
Qed.

Lemma config_constructed_has_required_fields_witness :
  truthy (ForgeConfig.get
            (ForgeConfig.mkConfig "env.yaml" (ForgeConfig.environ sample_env))
            "API_ENDPOINT") = true
  /\ truthy (ForgeConfig.get
               (ForgeConfig.mkConfig "env.yaml" (ForgeConfig.environ sample_env))
               "API_KEY") = true.
Proof.
  apply (config_constructed_has_required_fields ∅ sample_env "env.yaml" None).
  reflexivity.
Defined.

(** X23. forge/config.py: a configuration file that exists shadows the
    environment altogether.  Construction then gives the same outcome
    whatever the environment holds, so a file that lacks a required field
    is an error even when the variable is set. *)
Theorem config_file_shadows_environment :
  forall (fs : gmap string ForgeConfig.yaml_document)
         (env env' : gmap string string) (default_path : string)
         (path : option string),
    is_Some (fs !! (if truthy path then fmt path else default_path)) ->
    ForgeConfig.init fs env default_path path
    = ForgeConfig.init fs env' default_path path.
Proof.
  intros fs env env' default_path path [doc Hdoc].
  unfold ForgeConfig.init, ForgeConfig._load_config. by rewrite Hdoc.
Qed.

Lemma config_file_shadows_environment_witness :
  let fs : gmap string ForgeConfig.yaml_document :=
    {["env.yaml" := ForgeConfig.YamlMapping {["API_KEY" := Some "k"]}]} in
  ForgeConfig.init fs sample_env "env.yaml" None
  = ForgeConfig.init fs ∅ "env.yaml" None.
Proof.
  intros fs.
  apply (config_file_shadows_environment fs sample_env ∅ "env.yaml" None).
  by eexists.
Defined.

(** X24. forge/config.py: without a file at the configuration path the
    environment is used: when [API_ENDPOINT] and [API_KEY] are set and not
    empty, construction succeeds, whatever the path was, and [get] reads
    the three variables back as they are in the environment. *)
Theorem config_reads_environment :
  forall (fs : gmap string ForgeConfig.yaml_document)
         (env : gmap string string) (default_path : string)
         (path : option string),
    fs !! (if truthy path then fmt path else default_path) = None ->
    truthy (env !! "API_ENDPOINT") = true ->
    truthy (env !! "API_KEY") = true ->
    exists cfg,
      ForgeConfig.init fs env default_path path = Returns cfg
      /\ ForgeConfig.get cfg "API_ENDPOINT" = env !! "API_ENDPOINT"
      /\ ForgeConfig.get cfg "API_KEY" = env !! "API_KEY"
      /\ ForgeConfig.get cfg "GCP_JSON_KEY_PATH" = env !! "GCP_JSON_KEY_PATH".
Proof.
  intros fs env default_path path Hfile Hendpoint Hkey.
  unfold ForgeConfig.init, ForgeConfig._load_config. rewrite Hfile.
  assert (ForgeConfig.dict_get (ForgeConfig.environ env) "API_ENDPOINT"
          = env !! "API_ENDPOINT") as He by done.
  assert (ForgeConfig.dict_get (ForgeConfig.environ env) "API_KEY"
          = env !! "API_KEY") as Hk by done.
  assert (ForgeConfig._validate_config (Some (ForgeConfig.environ env))
          = Returns tt) as ->.
  { apply validate_accepts. by rewrite He, Hk. }
  eexists. split; [reflexivity |]. unfold ForgeConfig.get. simpl.
  by rewrite He, Hk.
Qed.

Lemma config_reads_environment_witness :
  exists cfg,
    ForgeConfig.init ∅ sample_env "env.yaml" (Some "non_existent.yaml")
    = Returns cfg
    /\ ForgeConfig.get cfg "API_ENDPOINT" = sample_env !! "API_ENDPOINT"
    /\ ForgeConfig.get cfg "API_KEY" = sample_env !! "API_KEY"
    /\ ForgeConfig.get cfg "GCP_JSON_KEY_PATH"
       = sample_env !! "GCP_JSON_KEY_PATH".
Proof.
  apply (config_reads_environment ∅ sample_env "env.yaml"
           (Some "non_existent.yaml")); reflexivity.
Defined.



(** ** Witnesses for the general lemmas on [retry], progress and
    [schedule_job] *)


Lemma progress_notifications_v0_witness :
  notifications
    (ProductionSdk.process_batch
       (fun i _ => if Nat.eqb i 0 then completed_reply else not_found_reply)
       (fun _ => 0) [doc1; doc2] 5 true [1; 0]).1
  = (fun c => (c, length [doc1; doc2])) <$> seq 1 (length [doc1; doc2]).
Proof.
  apply (progress_notifications_v0
           (fun i _ => if Nat.eqb i 0 then completed_reply else not_found_reply)
           (fun _ => 0) [doc1; doc2] 5 [1; 0]); [lia | apply perm_swap |].
  intros i Hi. destruct i as [| [| i]]; [reflexivity | reflexivity |].
  simpl in Hi. lia.
Defined.

Lemma schedule_job_v2_replaces_witness :
  let valid (_ : string) := true in
  let self := ProductionSdk2.init "job.py"
                [mkJob "a" "Docs" daily; mkJob "backup" "Nightly" daily;
                 mkJob "b" "Docs" daily] in
  exists self' job,
    ProductionSdk2.schedule_job valid self [] daily "Docs"
      = (self', ProductionSdk2.cron self', Returns job)
    /\ count_label "Docs" (ProductionSdk2.cron self') = 1
    /\ (forall c, c <> "Docs" ->
          find_comment (ProductionSdk2.cron self') c
          = find_comment (ProductionSdk2.cron self) c).
Proof.
  intros valid self.
  apply (schedule_job_v2_replaces valid self [] daily "Docs"). reflexivity.
Defined.
